(** * Formula Status Trigger: a shallow embedding of the webhook service

    The development follows the layout of the repository:
    - [Number], [JsString], [Js]: the JavaScript data the code works on
      (IEEE 754 binary64 numbers, strings, JSON values) and the built-ins
      the code calls ([parseFloat], [String.prototype.trim], truthiness);
    - [Config]: src/config.js;
    - [Utils]: src/utils.js;
    - [Crypto]: the HMAC of Node's [crypto] module;
    - [Effects], [Client], [Server]: src/mondayClient.js and the Express
      application, over a trace of what a request does;
    - theorems about each of them at the end of the file. *)

From Stdlib Require Import ZArith NArith List String Ascii Bool Lia.
From Stdlib Require Import Floats.SpecFloat DecimalString.
From Equations Require Import Equations.
Import ListNotations.

#[local] Set Warnings "-register-all".
Local Open Scope string_scope.

(* ===================================================================== *)
(** ** JavaScript numbers *)
(* ===================================================================== *)

(** A JavaScript Number is an IEEE 754 binary64 value.  The standard
    library's [spec_float] is the specification of such values; all
    operations below are taken at precision 53 and maximal exponent 1024. *)
Module Number.

Definition prec : Z := 53.
Definition emax : Z := 1024.

Definition number : Type := spec_float.

Definition NaN : number := S754_nan.
Definition Infinity : number := S754_infinity false.

(** The global [isNaN] on an argument that is already a Number. *)
Definition isNaN (x : number) : bool :=
  match x with
  | S754_nan => true
  | _ => false
  end.

(** The relational operators on Numbers; every comparison that involves
    NaN is false. *)
Definition num_lt (x y : number) : bool := SFltb x y.
Definition num_le (x y : number) : bool := SFleb x y.
Definition num_gt (x y : number) : bool := SFltb y x.
Definition num_ge (x y : number) : bool := SFleb y x.

(** The Number nearest to an integer (ties to even). *)
Definition of_Z (z : Z) : number := binary_normalize prec emax z 0 false.

(** The Number nearest to [(-1)^neg * m * 10^e]: the rounding that turns
    the mathematical value of a decimal literal into a Number.  A non
    negative exponent gives an integer, rounded once; a negative one
    gives a quotient of two integers, whose division is rounded once. *)
Definition of_decimal (neg : bool) (m : N) (e : Z) : number :=
  match m with
  | N0 => S754_zero neg
  | Npos p =>
      match e with
      | Zneg k =>
          SFdiv prec emax (S754_finite neg p 0)
                          (S754_finite false (Pos.pow 10 k) 0)
      | _ => binary_round prec emax neg (p * Z.to_pos (10 ^ e)) 0
      end
  end.

End Number.
Export Number.

(* ===================================================================== *)
(** ** JavaScript strings *)
(* ===================================================================== *)

(** A string is held as the bytes of its UTF-8 encoding, which is how a
    string literal of this file is read.  The characters the code looks at
    (digits, signs, [,], [$], [%], white space) are recognised on that
    encoding. *)
Module JsString.

(** [ws_strip s] removes one leading WhiteSpace or LineTerminator code
    point of ECMAScript from [s], when there is one: TAB, LF, VT, FF, CR,
    SP, U+00A0, U+1680, U+2000 to U+200A, U+2028, U+2029, U+202F, U+205F,
    U+3000 and U+FEFF. *)
Definition ws_strip (s : string) : option string :=
  match s with
  | String "009" r | String "010" r | String "011" r
  | String "012" r | String "013" r | String " " r => Some r
  | String "194" (String "160" r) => Some r
  | String "225" (String "154" (String "128" r)) => Some r
  | String "226" (String "128" (String c r)) =>
      let n := nat_of_ascii c in
      if ((128 <=? n) && (n <=? 138))%nat || (n =? 168)%nat
         || (n =? 169)%nat || (n =? 175)%nat
      then Some r else None
  | String "226" (String "129" (String "159" r)) => Some r
  | String "227" (String "128" (String "128" r)) => Some r
  | String "239" (String "187" (String "191" r)) => Some r
  | _ => None
  end.

(** [String.prototype.trimStart]; the fuel bounds the number of code
    points removed and is the length of the string. *)
Fixpoint trimStart_fuel (fuel : nat) (s : string) : string :=
  match fuel with
  | O => s
  | S k =>
      match ws_strip s with
      | Some r => trimStart_fuel k r
      | None => s
      end
  end.

Definition trimStart (s : string) : string :=
  trimStart_fuel (String.length s) s.

(** A string made of white space only. *)
Definition blank (s : string) : bool :=
  match trimStart s with
  | EmptyString => true
  | _ => false
  end.

(** [String.prototype.trimEnd]: the longest blank suffix is dropped. *)
Fixpoint trimEnd (s : string) : string :=
  match s with
  | EmptyString => EmptyString
  | String c r => if blank s then EmptyString else String c (trimEnd r)
  end.

(** [String.prototype.trim]. *)
Definition trim (s : string) : string := trimEnd (trimStart s).

(** [s.replace(/[cs]/g, '')] for a class [cs] of ASCII characters: every
    occurrence of a character of the class is removed. *)
Fixpoint remove_chars (cs : list ascii) (s : string) : string :=
  match s with
  | EmptyString => EmptyString
  | String c r =>
      if existsb (Ascii.eqb c) cs then remove_chars cs r
      else String c (remove_chars cs r)
  end.

(** *** [parseFloat] *)

Definition is_digit (c : ascii) : bool :=
  let n := nat_of_ascii c in ((48 <=? n) && (n <=? 57))%nat.

Definition digit_value (c : ascii) : N := N.of_nat (nat_of_ascii c - 48).

(** The longest run of decimal digits at the head of [s], and the rest. *)
Fixpoint span_digits (s : string) : list ascii * string :=
  match s with
  | String c r =>
      if is_digit c
      then let (ds, rest) := span_digits r in (c :: ds, rest)
      else ([], s)
  | EmptyString => ([], EmptyString)
  end.

(** The value of a run of digits read in base ten. *)
Definition digits_value (ds : list ascii) : N :=
  fold_left (fun acc c => (10 * acc + digit_value c)%N) ds 0%N.

(** An optional sign; [true] stands for [-]. *)
Definition read_sign (s : string) : bool * string :=
  match s with
  | String "-" r => (true, r)
  | String "+" r => (false, r)
  | _ => (false, s)
  end.

(** The ExponentPart of a StrDecimalLiteral, when a complete one stands
    at the head of [s]: [e] or [E], an optional sign and at least one
    digit.  An incomplete one is not part of the literal. *)
Definition read_exponent (s : string) : Z :=
  match s with
  | String c r =>
      if Ascii.eqb c "e" || Ascii.eqb c "E" then
        let (neg, r') := read_sign r in
        match fst (span_digits r') with
        | [] => 0%Z
        | ds => let v := Z.of_N (digits_value ds) in
                if neg then (- v)%Z else v
        end
      else 0%Z
  | EmptyString => 0%Z
  end.

(** The unsigned part of a StrDecimalLiteral at the head of [s]:
    [Infinity], or digits with an optional fraction and exponent, or a
    fraction that starts with the point.  [None] when no prefix of [s]
    is such a literal. *)
Definition read_unsigned (neg : bool) (s : string) : option number :=
  if String.prefix "Infinity" s then Some (S754_infinity neg)
  else
    let (ip, r1) := span_digits s in
    match r1 with
    | String "." r2 =>
        let (fp, r3) := span_digits r2 in
        match ip, fp with
        | [], [] => None
        | _, _ =>
            Some (of_decimal neg (digits_value (ip ++ fp))
                    (read_exponent r3 - Z.of_nat (List.length fp)))
        end
    | _ =>
        match ip with
        | [] => None
        | _ => Some (of_decimal neg (digits_value ip) (read_exponent r1))
        end
    end.

(** The global [parseFloat] on a string: leading white space is skipped,
    the longest prefix that is a StrDecimalLiteral is read and rounded to
    a Number, and NaN is returned when there is no such prefix. *)
Definition parseFloat (s : string) : number :=
  let (neg, r) := read_sign (trimStart s) in
  match read_unsigned neg r with
  | Some x => x
  | None => NaN
  end.

End JsString.
Export JsString.

(* ===================================================================== *)
(** ** JavaScript values *)
(* ===================================================================== *)

Module Js.

(** The values a parsed JSON document is made of, and [undefined], the
    value of a property that is not there. *)
Inductive value : Type :=
| VUndefined
| VNull
| VBool (b : bool)
| VNumber (x : number)
| VString (s : string)
| VArray (items : list value)
| VObject (fields : list (string * value)).

(** The [typeof] operator. *)
Definition typeof (v : value) : string :=
  match v with
  | VUndefined => "undefined"
  | VNull => "object"
  | VBool _ => "boolean"
  | VNumber _ => "number"
  | VString _ => "string"
  | VArray _ | VObject _ => "object"
  end.

(** ToBoolean: the falsy values are [undefined], [null], [false], the
    zeros, NaN and the empty string. *)
Definition truthy (v : value) : bool :=
  match v with
  | VUndefined | VNull => false
  | VBool b => b
  | VNumber (S754_nan) | VNumber (S754_zero _) => false
  | VNumber _ => true
  | VString EmptyString => false
  | VString _ => true
  | VArray _ | VObject _ => true
  end.

(** What an evaluation can throw: a TypeError (a property read on
    [undefined] or [null]), the rejection of [fetch] (no response), the
    rejection of [response.json()] (a body that is not JSON), and an
    [Error] made by the program with its message. *)
Inductive error : Type :=
| TypeError
| NetworkError
| InvalidJson
| Error (message : string).

(** The outcome of an evaluation that may throw. *)
Inductive result (A : Type) : Type :=
| Ok (a : A)
| Throw (e : error).
Arguments Ok {A} a.
Arguments Throw {A} e.

Definition bind {A B : Type} (m : result A) (k : A -> result B) : result B :=
  match m with
  | Ok a => k a
  | Throw e => Throw e
  end.

(** The own property [k] of an object whose properties are [fields], and
    [undefined] when it has none; a key is read at its first binding. *)
Fixpoint lookup (k : string) (fields : list (string * value)) : value :=
  match fields with
  | [] => VUndefined
  | (k', v) :: rest => if String.eqb k k' then v else lookup k rest
  end.

(** The property access [v.k], for the property names this program
    reads ([event], [boardId], [pulseId], [itemId], [columnId],
    [columnType], [value], [previousValue], [userId], [errors], [data]):
    none of them is [length], an index or a member of a built-in
    prototype, so that only an object can hold one.  Reading a property
    of [undefined] or [null] throws a TypeError. *)
Definition get (v : value) (k : string) : result value :=
  match v with
  | VUndefined | VNull => Throw TypeError
  | VObject fields => Ok (lookup k fields)
  | VBool _ | VNumber _ | VString _ | VArray _ => Ok VUndefined
  end.

(** [xs.includes(v)] on an array of strings: SameValueZero makes a
    string equal to the same string only. *)
Definition includes (xs : list string) (v : value) : bool :=
  match v with
  | VString s => existsb (String.eqb s) xs
  | _ => false
  end.

(** [toString_throws v]: the conversion of [v] to a string throws a
    TypeError, for a value [v] that is neither [undefined] nor [null].
    An object made by [JSON.parse] that has a property named [toString]
    holds under it a value that cannot be called, which hides
    [Object.prototype.toString]: the call [v.toString()] throws, and so
    does ToString, which finds no method that gives a primitive.  The
    [toString] of an array joins the strings of its elements, where
    [undefined] and [null] count as the empty string, and throws when the
    string of an element cannot be made. *)
Fixpoint toString_throws (v : value) : bool :=
  match v with
  | VObject fields =>
      existsb (fun field => String.eqb (fst field) "toString") fields
  | VArray items => existsb toString_throws items
  | VUndefined | VNull | VBool _ | VNumber _ | VString _ => false
  end.

(** An argument documented as a number that the code also tests against
    [null] and [undefined]. *)
Inductive maybe_number : Type :=
| Null
| Undefined
| Num (x : number).

End Js.
Export Js.

Declare Scope js_scope.
Delimit Scope js_scope with js.
Notation "x <- m ;; k" := (bind m (fun x => k))
  (at level 61, m at next level, right associativity) : js_scope.

(* ===================================================================== *)
(** ** src/config.js *)
(* ===================================================================== *)

Module Config.

(** An entry of [statusMapping]. *)
Record StatusRule : Type := {
  label : string;
  index : Z;
  color : string;
  condition : number -> bool
}.

Record RateLimit : Type := {
  maxRetries : nat;
  initialDelayMs : Z;
  maxDelayMs : Z;
  backoffMultiplier : Z
}.

Record Logging : Type := {
  logWebhooks : bool;
  logApiCalls : bool;
  logErrors : bool
}.

Record t : Type := {
  statusMapping : list StatusRule;
  formulaColumnTypes : list string;
  ignoreColumnTypes : list string;
  rateLimit : RateLimit;
  logging : Logging
}.

(** The configuration the module exports. *)
Definition config : t := {|
  statusMapping := [
    {| label := "Done"; index := 1; color := "green";
       condition := fun value => num_gt value (of_Z 100) |};
    {| label := "Working on it"; index := 2; color := "yellow";
       condition := fun value =>
         num_ge value (of_Z 50) && num_le value (of_Z 100) |};
    {| label := "Stuck"; index := 3; color := "red";
       condition := fun value => num_lt value (of_Z 50) |}
  ];
  formulaColumnTypes := ["formula"];
  ignoreColumnTypes := ["status"];
  rateLimit := {|
    maxRetries := 3;
    initialDelayMs := 1000;
    maxDelayMs := 10000;
    backoffMultiplier := 2
  |};
  logging := {|
    logWebhooks := true;
    logApiCalls := true;
    logErrors := true
  |}
|}.

End Config.

(* ===================================================================== *)
(** ** src/utils.js *)
(* ===================================================================== *)

Module Utils.
Import Config.

(** The projection of a rule that [mapValueToStatus] returns. *)
Record ResolvedStatus : Type := {
  status_label : string;
  status_index : Z;
  status_color : string
}.

(** The record [extractEventData] builds; [value_] is its field [value],
    a name the type of values has taken. *)
Record EventData : Type := {
  boardId : value;
  itemId : value;
  columnId : value;
  columnType : value;
  value_ : value;
  previousValue : value;
  userId : value
}.

(** The character class of the regular expression [/[,$%]/g]. *)
Definition formatting : list ascii := [","; "$"; "%"]%char.

(** [parseFormulaValue]; [None] is the [null] it returns. *)
Definition parseFormulaValue (value : value) : option number :=
  match value with
  | VNull | VUndefined => None
  | VString s =>
      let cleaned := trim (remove_chars formatting s) in
      let parsed := parseFloat cleaned in
      if isNaN parsed then None else Some parsed
  | VNumber x => if isNaN x then None else Some x
  | VBool _ | VArray _ | VObject _ => None
  end.

(** The object [mapValueToStatus] makes of a rule. *)
Definition resolved (status : StatusRule) : ResolvedStatus :=
  {| status_label := label status;
     status_index := index status;
     status_color := color status |}.

(** The loop of [mapValueToStatus] over the rules that are left. *)
Fixpoint first_status (rules : list StatusRule) (x : number)
  : option ResolvedStatus :=
  match rules with
  | [] => None
  | status :: rest =>
      if condition status x then Some (resolved status)
      else first_status rest x
  end.

(** [mapValueToStatus]; [None] is the [null] it returns. *)
Definition mapValueToStatus (cfg : Config.t) (value : maybe_number)
  : option ResolvedStatus :=
  match value with
  | Null | Undefined => None
  | Num x =>
      if isNaN x then None else first_status (statusMapping cfg) x
  end.

(** [shouldProcessEvent]. *)
Definition shouldProcessEvent (cfg : Config.t) (event : EventData) : bool :=
  if truthy (columnType event)
     && includes (ignoreColumnTypes cfg) (columnType event)
  then false
  else if truthy (columnType event)
          && negb (includes (formulaColumnTypes cfg) (columnType event))
  then false
  else true.

(** The loop of [validateWebhookPayload] over the required fields. *)
Fixpoint all_fields_truthy (payload : value) (fields : list string)
  : result bool :=
  match fields with
  | [] => Ok true
  | field :: rest =>
      (v <- get payload field ;;
       if negb (truthy v) then Ok false
       else all_fields_truthy payload rest)%js
  end.

(** [validateWebhookPayload]. *)
Definition validateWebhookPayload (payload : value) : result bool :=
  if negb (truthy payload) || negb (typeof payload =? "object")
  then Ok false
  else all_fields_truthy payload ["event"].

(** The body of the [try] block of [extractEventData]. *)
Definition extractEventData_try (payload : value) : result EventData :=
  (event <- get payload "event" ;;
   event_boardId <- get event "boardId" ;;
   boardId <- (if truthy event_boardId then Ok event_boardId
               else get payload "boardId") ;;
   event_pulseId <- get event "pulseId" ;;
   itemId <- (if truthy event_pulseId then Ok event_pulseId
              else get event "itemId") ;;
   columnId <- get event "columnId" ;;
   columnType <- get event "columnType" ;;
   value <- get event "value" ;;
   previousValue <- get event "previousValue" ;;
   userId <- get event "userId" ;;
   Ok {| boardId := boardId; itemId := itemId; columnId := columnId;
         columnType := columnType; value_ := value;
         previousValue := previousValue; userId := userId |})%js.

(** [extractEventData]: whatever the body throws is caught and [null],
    here [None], is returned. *)
Definition extractEventData (payload : value) : option EventData :=
  match extractEventData_try payload with
  | Ok data => Some data
  | Throw _ => None
  end.

(** [calculateBackoffDelay], for a policy of whole numbers.  The attempt
    is a retry count, a natural number.  The result is the one of the
    code when the numbers of the policy are whole numbers that a Number
    holds exactly (up to [Number.MAX_SAFE_INTEGER] in size), the initial
    delay is at least 1 and the multiplier is at least 1: a product up to
    [maxDelayMs] is then computed exactly, and a larger one, the infinite
    one of an overflow included, is as a Number not below [maxDelayMs],
    which [Math.min] takes.  For the policy of src/config.js this is so
    at every attempt.  With an initial delay of zero and a power that
    overflows the code gives NaN, which no whole number stands for. *)
Definition calculateBackoffDelay (cfg : Config.t) (attempt : nat) : Z :=
  let delay :=
    (initialDelayMs (rateLimit cfg)
     * backoffMultiplier (rateLimit cfg) ^ Z.of_nat attempt)%Z in
  Z.min delay (maxDelayMs (rateLimit cfg)).

End Utils.

(* ===================================================================== *)
(** ** Node's [crypto]: HMAC over SHA-256 *)
(* ===================================================================== *)

(** [crypto.createHmac('sha256', key).update(data).digest('hex')], after
    FIPS 180-4 (SHA-256) and RFC 2104 (HMAC).  Words are 32-bit integers
    held in [N], with the wrap-around written out; strings are hashed as
    their bytes. *)
Module Crypto.
Local Open Scope N_scope.

Definition wrap32 (x : N) : N := x mod 2 ^ 32.
Definition add32 (x y : N) : N := wrap32 (x + y).
Definition rotr (n x : N) : N :=
  N.lor (N.shiftr x n) (wrap32 (N.shiftl x (32 - n))).
Definition not32 (x : N) : N := N.lxor x (2 ^ 32 - 1).

Definition Ch (x y z : N) : N := N.lxor (N.land x y) (N.land (not32 x) z).
Definition Maj (x y z : N) : N :=
  N.lxor (N.lxor (N.land x y) (N.land x z)) (N.land y z).
Definition Sum0 (x : N) : N := N.lxor (N.lxor (rotr 2 x) (rotr 13 x)) (rotr 22 x).
Definition Sum1 (x : N) : N := N.lxor (N.lxor (rotr 6 x) (rotr 11 x)) (rotr 25 x).
Definition sig0 (x : N) : N := N.lxor (N.lxor (rotr 7 x) (rotr 18 x)) (N.shiftr x 3).
Definition sig1 (x : N) : N := N.lxor (N.lxor (rotr 17 x) (rotr 19 x)) (N.shiftr x 10).

(** The first sixty-four primes. *)
Definition is_prime (n : nat) : bool :=
  forallb (fun d => negb (Nat.eqb (Nat.modulo n d) 0)) (seq 2 (n - 2)).
Definition primes : list N :=
  Eval vm_compute in map N.of_nat (filter is_prime (seq 2 310)).

(** The integer cube root, found bit by bit from the top. *)
Definition cbrt (n : N) : N :=
  fold_left
    (fun r b => let r' := r + 2 ^ N.of_nat b in
                if r' * r' * r' <=? n then r' else r)
    (rev (seq 0 48)) 0.

(** The round constants: the first 32 bits of the fractional parts of
    the cube roots of the first sixty-four primes. *)
Definition K : list N :=
  Eval vm_compute in map (fun p => wrap32 (cbrt (p * 2 ^ 96))) primes.

(** The initial hash value: the first 32 bits of the fractional parts of
    the square roots of the first eight primes. *)
Definition H0 : list N :=
  Eval vm_compute in
    map (fun p => wrap32 (N.sqrt (p * 2 ^ 64))) (firstn 8 primes).

(** Padding: the bit 1, zeros up to 56 modulo 64 bytes, and the length
    of the message in bits on 8 bytes, big-endian. *)
Definition be_bytes (n : nat) (x : N) : list N :=
  map (fun i => N.shiftr x (8 * N.of_nat i) mod 256) (rev (seq 0 n)).

Definition pad (msg : list N) : list N :=
  let len := N.of_nat (List.length msg) in
  let zeros := N.to_nat ((64 - (len + 9) mod 64) mod 64) in
  (msg ++ [128] ++ repeat 0 zeros ++ be_bytes 8 (8 * len))%list.

(** Big-endian 32-bit words of a run of bytes. *)
Fixpoint words_of_bytes (bs : list N) : list N :=
  match bs with
  | b0 :: b1 :: b2 :: b3 :: rest =>
      (((b0 * 256 + b1) * 256 + b2) * 256 + b3) :: words_of_bytes rest
  | _ => []
  end.

(** The message schedule of a block, last word first: [ws] holds
    W(t-1), W(t-2), ... and is extended by [n] words. *)
Fixpoint schedule (n : nat) (ws : list N) : list N :=
  match n with
  | O => ws
  | S k =>
      let w := add32 (add32 (sig1 (nth 1 ws 0)) (nth 6 ws 0))
                     (add32 (sig0 (nth 14 ws 0)) (nth 15 ws 0)) in
      schedule k (w :: ws)
  end.

(** The eight working variables. *)
Record state : Type := {
  ha : N; hb : N; hc : N; hd : N; he : N; hf : N; hg : N; hh : N
}.

Definition round (s : state) (kw : N * N) : state :=
  let (k, w) := kw in
  let t1 := add32 (add32 (add32 (hh s) (Sum1 (he s)))
                         (add32 (Ch (he s) (hf s) (hg s)) k)) w in
  let t2 := add32 (Sum0 (ha s)) (Maj (ha s) (hb s) (hc s)) in
  {| ha := add32 t1 t2; hb := ha s; hc := hb s; hd := hc s;
     he := add32 (hd s) t1; hf := he s; hg := hf s; hh := hg s |}.

(** One block of sixteen words is folded into the hash value. *)
Definition compress (h : state) (block : list N) : state :=
  let ws := rev (schedule 48 (rev block)) in
  let s := fold_left round (combine K ws) h in
  {| ha := add32 (ha h) (ha s); hb := add32 (hb h) (hb s);
     hc := add32 (hc h) (hc s); hd := add32 (hd h) (hd s);
     he := add32 (he h) (he s); hf := add32 (hf h) (hf s);
     hg := add32 (hg h) (hg s); hh := add32 (hh h) (hh s) |}.

Fixpoint blocks (n : nat) (ws : list N) : list (list N) :=
  match n with
  | O => []
  | S k => firstn 16 ws :: blocks k (skipn 16 ws)
  end.

Definition initial : state :=
  {| ha := nth 0 H0 0; hb := nth 1 H0 0; hc := nth 2 H0 0; hd := nth 3 H0 0;
     he := nth 4 H0 0; hf := nth 5 H0 0; hg := nth 6 H0 0; hh := nth 7 H0 0 |}.

Definition sha256_state (msg : list N) : state :=
  let ws := words_of_bytes (pad msg) in
  fold_left compress (blocks (List.length ws / 16) ws) initial.

Definition state_words (s : state) : list N :=
  [ha s; hb s; hc s; hd s; he s; hf s; hg s; hh s].

(** The digest as 32 bytes. *)
Definition sha256 (msg : list N) : list N :=
  flat_map (be_bytes 4) (state_words (sha256_state msg)).

(** HMAC: a key longer than a block is hashed first, then padded with
    zeros to a block; the inner and outer pads are 0x36 and 0x5c. *)
Definition hmac_state (key msg : list N) : state :=
  let k := if (64 <? List.length key)%nat then sha256 key else key in
  let k := (k ++ repeat 0 (64 - List.length k))%list in
  let inner := sha256 (map (N.lxor 54) k ++ msg)%list in
  sha256_state (map (N.lxor 92) k ++ inner)%list.

(** Lower-case hexadecimal. *)
Definition hex_digit (n : N) : ascii :=
  ascii_of_N (if n <? 10 then 48 + n else 87 + n).

Definition hex_word (x : N) : string :=
  let d i := hex_digit (N.shiftr x (4 * i) mod 16) in
  String (d 7) (String (d 6) (String (d 5) (String (d 4)
    (String (d 3) (String (d 2) (String (d 1) (String (d 0) "")))))))%string.

Definition hex_state (s : state) : string :=
  (hex_word (ha s) ++ hex_word (hb s) ++ hex_word (hc s) ++ hex_word (hd s)
   ++ hex_word (he s) ++ hex_word (hf s) ++ hex_word (hg s)
   ++ hex_word (hh s))%string.

Definition bytes_of_string (s : string) : list N :=
  map N_of_ascii (list_ascii_of_string s).

Definition sha256_hex (data : string) : string :=
  hex_state (sha256_state (bytes_of_string data)).

Definition hmac_sha256_hex (key data : string) : string :=
  hex_state (hmac_state (bytes_of_string key) (bytes_of_string data)).

End Crypto.

(* ===================================================================== *)
(** ** What a request does: responses, requests to the API, timers *)
(* ===================================================================== *)

Module Effects.
Import Utils.

(** The components of the pipeline. *)
Inductive component : Type :=
| SignatureVerifier
| PayloadNormalizer
| EventFilter
| ValueMapper
| RemoteUpdateClient.

(** What is observed while a request is served, in the order in which it
    happens: a component is entered, the response is sent to the caller,
    a callback is handed to [setImmediate], a request is sent to the
    remote API, the task sleeps.  Console output is left out. *)
Inductive event : Type :=
| Run (c : component)
| Respond (status : Z) (body : value)
| SetImmediate
| Fetch (query : string) (variables : value)
| Sleep (ms : Z).

(** The state threaded through the code: the number of requests sent to
    the API so far, the trace, and the callbacks queued by
    [setImmediate], each with the event data it closes over. *)
Record world : Type := {
  sent : nat;
  trace : list event;
  immediates : list EventData
}.

Definition start : world := {| sent := 0; trace := []; immediates := [] |}.

Definition emit (e : event) (w : world) : world :=
  {| sent := sent w; trace := trace w ++ [e]; immediates := immediates w |}.

Definition count_fetch (w : world) : world :=
  {| sent := S (sent w); trace := trace w; immediates := immediates w |}.

Definition setImmediate (data : EventData) (w : world) : world :=
  emit SetImmediate
    {| sent := sent w; trace := trace w;
       immediates := immediates w ++ [data] |}.

End Effects.

(* ===================================================================== *)
(** ** src/mondayClient.js *)
(* ===================================================================== *)

Module Client.
Import Config Utils Effects.

(** What [fetch] gives: a rejection, or a response with its status and
    its body, [None] when the body is not JSON. *)
Inductive outcome : Type :=
| Rejected
| Response (status : Z) (body : option value).

(** [response.ok]. *)
Definition ok (status : Z) : bool := ((200 <=? status) && (status <=? 299))%Z.

Definition string_of_Z (z : Z) : string := NilZero.string_of_int (Z.to_int z).

Section WithServer.
(** The configuration module. *)
Variable cfg : Config.t.
(** [JSON.stringify] and, for a value whose [toString()] does not throw,
    the string it gives. *)
Variable JSON_stringify : value -> string.
Variable toString : value -> string.
(** The remote API: the outcome of the n-th request sent to it. *)
Variable server : nat -> outcome.

(** [executeQuery].  The [catch] block logs and throws again what it
    caught. *)
Equations executeQuery (query : string) (variables : value)
    (retryCount : nat) (w : world) : result value * world
    by wf (maxRetries (rateLimit cfg) - retryCount) lt :=
  executeQuery query variables retryCount w
    with server (sent w) => {
    | Rejected =>
        (Throw NetworkError, count_fetch (emit (Fetch query variables) w));
    | Response status None =>
        (Throw InvalidJson, count_fetch (emit (Fetch query variables) w));
    | Response status (Some data) with Z.eqb status 429 => {
      | true with lt_dec retryCount (maxRetries (rateLimit cfg)) => {
        | left _ =>
            let delay := calculateBackoffDelay cfg retryCount in
            executeQuery query variables (retryCount + 1)
              (emit (Sleep delay)
                 (count_fetch (emit (Fetch query variables) w)));
        | right _ =>
            (Throw (Error "Rate limit exceeded. Max retries reached."),
             count_fetch (emit (Fetch query variables) w)) };
      | false =>
          (match get data "errors" with
           | Throw e => Throw e
           | Ok errors =>
               if truthy errors then
                 Throw (Error ("Monday API error: "
                               ++ JSON_stringify errors))
               else if negb (ok status) then
                 Throw (Error ("HTTP error! status: "
                               ++ string_of_Z status))
               else get data "data"
           end,
           count_fetch (emit (Fetch query variables) w)) } }.
Next Obligation. lia. Qed.

(** The mutation [updateStatusColumn] sends. *)
Definition change_column_value : string :=
  "
      mutation ($boardId: ID!, $itemId: ID!, $columnId: String!, $value: JSON!) {
        change_column_value(
          board_id: $boardId,
          item_id: $itemId,
          column_id: $columnId,
          value: $value
        ) {
          id
          name
        }
      }
    ".

(** [x.toString()]: a TypeError on [undefined] and [null], which have no
    properties, and on a value whose [toString] cannot be called or
    throws. *)
Definition to_string (x : value) : result value :=
  match x with
  | VUndefined | VNull => Throw TypeError
  | _ =>
      if toString_throws x then Throw TypeError
      else Ok (VString (toString x))
  end.

(** [updateStatusColumn]. *)
Definition updateStatusColumn (boardId itemId : value)
    (statusColumnId : string) (statusIndex : Z) (w : world)
  : result value * world :=
  match to_string boardId with
  | Throw e => (Throw e, w)
  | Ok board =>
      match to_string itemId with
      | Throw e => (Throw e, w)
      | Ok item =>
          let variables := VObject [
            ("boardId", board);
            ("itemId", item);
            ("columnId", VString statusColumnId);
            ("value", VString (JSON_stringify
               (VObject [("index", VNumber (of_Z statusIndex))])))
          ] in
          executeQuery change_column_value variables 0 w
      end
  end.

(** ToNumber on a string, an array or an object, and the string made of
    the first UTF-16 code unit of a string that is not empty. *)
Variable ToNumber : value -> number.
Variable charAt0 : string -> string.

(** ToNumber; the cases of [undefined], [null], booleans and Numbers are
    written out. *)
Definition to_number (v : value) : number :=
  match v with
  | VUndefined => NaN
  | VNull => S754_zero false
  | VBool true => of_Z 1
  | VBool false => S754_zero false
  | VNumber x => x
  | VString _ | VArray _ | VObject _ => ToNumber v
  end.

(** [x.length > 0]: a string and an array have their length, an object
    has the property it holds under that name, and a boolean or a Number
    has none, which compares as NaN does. *)
Definition length_positive (x : value) : result bool :=
  match x with
  | VUndefined | VNull => Throw TypeError
  | VBool _ | VNumber _ => Ok false
  | VString EmptyString => Ok false
  | VString _ => Ok true
  | VArray [] => Ok false
  | VArray _ => Ok true
  | VObject fields =>
      Ok (num_gt (to_number (lookup "length" fields)) (S754_zero false))
  end.

(** [x[0]]. *)
Definition element0 (x : value) : result value :=
  match x with
  | VUndefined | VNull => Throw TypeError
  | VBool _ | VNumber _ => Ok VUndefined
  | VString EmptyString => Ok VUndefined
  | VString s => Ok (VString (charAt0 s))
  | VArray [] => Ok VUndefined
  | VArray (item :: _) => Ok item
  | VObject fields => Ok (lookup "0" fields)
  end.

(** The query [getItem] sends.  The properties [items], [boards] and
    [columns] read below are, like the ones [get] lists, no members of a
    built-in prototype. *)
Definition items_query : string :=
  "
      query ($itemId: ID!) {
        items(ids: [$itemId]) {
          id
          name
          board {
            id
          }
          column_values {
            id
            type
            text
            value
          }
        }
      }
    ".

(** [getItem]. *)
Definition getItem (itemId : value) (w : world) : result value * world :=
  match to_string itemId with
  | Throw e => (Throw e, w)
  | Ok item =>
      let variables := VObject [("itemId", item)] in
      match executeQuery items_query variables 0 w with
      | (Throw e, w') => (Throw e, w')
      | (Ok data, w') =>
          ((items <- get data "items" ;;
            if truthy items then
              positive <- length_positive items ;;
              if positive : bool then element0 items else Ok VNull
            else Ok VNull)%js, w')
      end
  end.

(** The query [getBoardColumns] sends. *)
Definition columns_query : string :=
  "
      query ($boardId: ID!) {
        boards(ids: [$boardId]) {
          columns {
            id
            title
            type
          }
        }
      }
    ".

(** [getBoardColumns]. *)
Definition getBoardColumns (boardId : value) (w : world)
  : result value * world :=
  match to_string boardId with
  | Throw e => (Throw e, w)
  | Ok board =>
      let variables := VObject [("boardId", board)] in
      match executeQuery columns_query variables 0 w with
      | (Throw e, w') => (Throw e, w')
      | (Ok data, w') =>
          ((boards <- get data "boards" ;;
            if truthy boards then
              positive <- length_positive boards ;;
              if positive : bool then
                first <- element0 boards ;;
                get first "columns"
              else Ok (VArray [])
            else Ok (VArray []))%js, w')
      end
  end.

End WithServer.

End Client.

(* ===================================================================== *)
(** ** The Express application *)
(* ===================================================================== *)

Module Server.
Import Config Utils Effects Client.

(** The variables of [process.env] the code reads; [None] is a variable
    that is not set. *)
Record Env : Type := {
  MONDAY_SIGNING_SECRET : option string;
  STATUS_COLUMN_ID : option string
}.

(** What the handler reads of a request: the [authorization] header,
    [None] when it is missing, and the body [express.json()] parsed. *)
Record Request : Type := {
  authorization : option string;
  body : value
}.

(** An environment variable or a header is falsy when it is missing or
    empty. *)
Definition present (x : option string) : option string :=
  match x with
  | Some EmptyString => None
  | _ => x
  end.

Section WithServer.
Variable cfg : Config.t.
Variable env : Env.
Variable JSON_stringify : value -> string.
Variable toString : value -> string.
Variable server : nat -> outcome.

(** [verifyWebhookSignature]. *)
Definition verifyWebhookSignature (req : Request) : bool :=
  match present (MONDAY_SIGNING_SECRET env) with
  | None => true
  | Some secret =>
      match present (authorization req) with
      | None => false
      | Some signature =>
          let body := JSON_stringify (body req) in
          let expectedSignature := Crypto.hmac_sha256_hex secret body in
          String.eqb signature expectedSignature
      end
  end.

(** [processWebhookEvent]: the task that runs after the response.  Its
    [catch] block logs whatever was thrown and returns. *)
Definition processWebhookEvent (eventData : EventData) (w : world) : world :=
  let w := emit (Run ValueMapper) w in
  match parseFormulaValue (value_ eventData) with
  | None => w
  | Some numericValue =>
      match mapValueToStatus cfg (Num numericValue) with
      | None => w
      | Some status =>
          let statusColumnId :=
            match present (STATUS_COLUMN_ID env) with
            | Some id => id
            | None => "status"
            end in
          snd (updateStatusColumn cfg JSON_stringify toString server
                 (boardId eventData) (itemId eventData) statusColumnId
                 (status_index status) (emit (Run RemoteUpdateClient) w))
      end
  end.

Definition json_error (message : string) : value :=
  VObject [("error", VString message)].
Definition json_message (message : string) : value :=
  VObject [("message", VString message)].

(** The handler of [POST /webhook], up to its return.  Whatever is thrown
    inside its [try] block is answered with status 500. *)
Definition webhook (req : Request) (w : world) : world :=
  let w := emit (Run SignatureVerifier) w in
  if negb (verifyWebhookSignature req) then
    emit (Respond 401 (json_error "Invalid signature")) w
  else
    let w := emit (Run PayloadNormalizer) w in
    match validateWebhookPayload (body req) with
    | Throw _ => emit (Respond 500 (json_error "Internal server error")) w
    | Ok false => emit (Respond 400 (json_error "Invalid payload")) w
    | Ok true =>
        match extractEventData (body req) with
        | None => emit (Respond 400 (json_error "Invalid event data")) w
        | Some eventData =>
            let w := emit (Run EventFilter) w in
            if negb (shouldProcessEvent cfg eventData) then
              emit (Respond 200 (json_message "Event ignored")) w
            else
              let w := emit (Respond 200 (json_message "Webhook received")) w in
              setImmediate eventData w
        end
    end.

(** The callbacks queued by [setImmediate] run once the handler has
    returned, in the order in which they were queued. *)
Definition run_immediates (w : world) : world :=
  fold_left (fun w data => processWebhookEvent data w) (immediates w)
    {| sent := sent w; trace := trace w; immediates := [] |}.

(** A request served from the start to the end of the task it leaves. *)
Definition serve (req : Request) : world :=
  run_immediates (webhook req start).

End WithServer.

End Server.

(* ===================================================================== *)
(** ** Notions the statements below are made of *)
(* ===================================================================== *)

Import Config Utils Effects Client Server.
Local Open Scope list_scope.

(** [decorates s t]: the string [s] is the string [t] with characters of
    the class [formatting] put in at any places. *)
Fixpoint decorates (s t : string) : bool :=
  match s with
  | EmptyString =>
      match t with
      | EmptyString => true
      | _ => false
      end
  | String c s' =>
      (existsb (Ascii.eqb c) formatting && decorates s' t)
      || match t with
         | String d t' => Ascii.eqb c d && decorates s' t'
         | EmptyString => false
         end
  end.

(** A string in which no character of the class [formatting] occurs. *)
Definition plain (t : string) : bool :=
  forallb (fun c => negb (existsb (Ascii.eqb c) formatting))
    (list_ascii_of_string t).

(** The Number a string is read as, or [null]: [parseFloat] on the
    trimmed string, with NaN turned into [null]. *)
Definition read_number (t : string) : option number :=
  let parsed := parseFloat (trim t) in
  if isNaN parsed then None else Some parsed.

(** [event_with ct]: an event whose only field is [columnType]. *)
Definition event_with (ct : value) : EventData :=
  {| boardId := VUndefined; itemId := VUndefined; columnId := VUndefined;
     columnType := ct; value_ := VUndefined; previousValue := VUndefined;
     userId := VUndefined |}.

(** The world once a request has been sent. *)
Definition after_fetch (query : string) (variables : value) (w : world)
  : world :=
  count_fetch (emit (Fetch query variables) w).

(** The events of the handler before it answers, the events of a request
    to the remote API, and the events of the task that runs after the
    handler has returned. *)
Definition sync_step (e : event) : bool :=
  match e with
  | Run SignatureVerifier | Run PayloadNormalizer | Run EventFilter => true
  | _ => false
  end.

Definition remote_step (e : event) : bool :=
  match e with
  | Fetch _ _ | Sleep _ => true
  | _ => false
  end.

Definition async_step (e : event) : bool :=
  match e with
  | SetImmediate | Run ValueMapper | Run RemoteUpdateClient
  | Fetch _ _ | Sleep _ => true
  | _ => false
  end.

Definition is_response (e : event) : bool :=
  match e with
  | Respond _ _ => true
  | _ => false
  end.

(** The response the orchestrator owes a request: the first check that
    fails, in the order signature, payload shape, event extraction,
    filter, picks it; a request that passes them all is acknowledged. *)
Definition expected_response (cfg : Config.t) (env : Env)
    (JSON_stringify : value -> string) (req : Request) : Z * value :=
  if negb (verifyWebhookSignature env JSON_stringify req) then
    (401%Z, json_error "Invalid signature")
  else
    match validateWebhookPayload (body req) with
    | Ok true =>
        match extractEventData (body req) with
        | None => (400%Z, json_error "Invalid event data")
        | Some eventData =>
            if shouldProcessEvent cfg eventData
            then (200%Z, json_message "Webhook received")
            else (200%Z, json_message "Event ignored")
        end
    | _ => (400%Z, json_error "Invalid payload")
    end.

(** [deferred c tr]: in the trace [tr], the component [c] is not entered
    before a response is sent. *)
Definition deferred (c : component) (tr : list event) : Prop :=
  forall before status body after,
    tr = before ++ Respond status body :: after -> ~ In (Run c) before.

(** A request for the examples: no signing secret is set, and a formula
    column of item 123 on board 456 has changed to "85%". *)
Definition no_secret : Env :=
  {| MONDAY_SIGNING_SECRET := None; STATUS_COLUMN_ID := None |}.

Definition formula_changed : Request :=
  {| authorization := None;
     body := VObject [
       ("event", VObject [
          ("boardId", VString "456");
          ("pulseId", VString "123");
          ("columnType", VString "formula");
          ("value", VString "85%") ]) ] |}.

(** A gateway that answers every request with status 429 and a page that
    is not JSON. *)
Definition gateway_429 (n : nat) : outcome := Response 429 None.

(** The character [U+0022]. *)
Definition dquote : string := String (ascii_of_nat 34) EmptyString.

(** The events of one call of [executeQuery] that starts with the retry
    count [retryCount] and is told to wait [n] times: a request, and [n]
    times a wait followed by the same request. *)
Fixpoint attempts (cfg : Config.t) (query : string) (variables : value)
    (retryCount n : nat) : list event :=
  match n with
  | O => [Fetch query variables]
  | S k =>
      Fetch query variables
      :: Sleep (calculateBackoffDelay cfg retryCount)
      :: attempts cfg query variables (S retryCount) k
  end.

(** The milliseconds slept in a trace. *)
Fixpoint slept (tr : list event) : Z :=
  match tr with
  | [] => 0%Z
  | Sleep ms :: rest => (ms + slept rest)%Z
  | _ :: rest => slept rest
  end.

(** [Number.MAX_SAFE_INTEGER], which is [2^53 - 1]: a whole number up to
    it in size is a Number. *)
Definition MAX_SAFE_INTEGER : Z := 9007199254740991.

(** [null] and [undefined], on which a method call throws. *)
Definition nullish (v : value) : bool :=
  match v with
  | VUndefined | VNull => true
  | _ => false
  end.

(** A value whose [toString()] throws: [null], [undefined], and a value
    of [toString_throws]. *)
Definition no_toString (v : value) : bool :=
  nullish v || toString_throws v.

(** The variables of the mutation that sets the status column
    [statusColumnId] of an item to the label of index [statusIndex]. *)
Definition status_variables (JSON_stringify toString : value -> string)
    (eventData : EventData) (statusColumnId : string) (statusIndex : Z)
  : value :=
  VObject [
    ("boardId", VString (toString (boardId eventData)));
    ("itemId", VString (toString (itemId eventData)));
    ("columnId", VString statusColumnId);
    ("value", VString (JSON_stringify
       (VObject [("index", VNumber (of_Z statusIndex))]))) ].

(** The status column the task writes: [STATUS_COLUMN_ID], or "status". *)
Definition status_column (env : Env) : string :=
  match present (STATUS_COLUMN_ID env) with
  | Some id => id
  | None => "status"
  end.

(** A digit of lower-case hexadecimal. *)
Definition lower_hex (c : ascii) : bool :=
  let n := nat_of_ascii c in
  (((48 <=? n) && (n <=? 57)) || ((97 <=? n) && (n <=? 102)))%nat.

(** An answer of the API with status 200 and the JSON object whose one
    field is [data]. *)
Definition answer_data (data : value) : outcome :=
  Response 200 (Some (VObject [("data", data)])).


(** A character a numeral can start with, for [parseFloat]: a digit, a
    sign, the point, or the first letter of [Infinity]. *)
Definition starts_numeral (c : ascii) : bool :=
  is_digit c || existsb (Ascii.eqb c) ["+"; "-"; "."; "I"]%char.

(** A text that cannot go on a run of digits: the empty text, and a text
    whose first character is no digit, no point and no exponent mark. *)
Definition stops_numeral (junk : string) : bool :=
  match junk with
  | EmptyString => true
  | String c _ =>
      negb (is_digit c || existsb (Ascii.eqb c) ["."; "e"; "E"]%char)
  end.

(* ===================================================================== *)
(** ** src/utils.js: the value mapper *)
(* ===================================================================== *)

Lemma first_status_some (rules : list StatusRule) (x : number)
    (s : ResolvedStatus) :
  first_status rules x = Some s <->
  exists before rule after,
    rules = before ++ rule :: after
    /\ Forall (fun r => condition r x = false) before
    /\ condition rule x = true
    /\ s = resolved rule.
Proof.
  induction rules as [|r rules IH]; simpl.
  - split; [discriminate|].
    intros (before & rule & after & E & _). destruct before; discriminate.
  - destruct (condition r x) eqn:Hc.
    + split.
      * intros [= <-]. exists [], r, rules. repeat split; auto.
      * intros (before & rule & after & E & Hb & Hr & ->).
        destruct before as [|b before]; simpl in E; injection E as -> ->.
        -- reflexivity.
        -- inversion Hb; congruence.
    + rewrite IH. split.
      * intros (before & rule & after & -> & Hb & Hr & ->).
        exists (r :: before), rule, after. repeat split; auto.
      * intros (before & rule & after & E & Hb & Hr & ->).
        destruct before as [|b before]; simpl in E; injection E as -> ->.
        -- congruence.
        -- inversion Hb; subst. exists before, rule, after. auto.
Qed.

Lemma first_status_none (rules : list StatusRule) (x : number) :
  first_status rules x = None <->
  Forall (fun r => condition r x = false) rules.
Proof.
  induction rules as [|r rules IH]; simpl.
  - split; auto.
  - destruct (condition r x) eqn:Hc.
    + split; [discriminate|]. inversion 1; congruence.
    + rewrite IH. split; [auto|]. inversion 1; auto.
Qed.

(** C1.  On a number that is not NaN, [mapValueToStatus] goes through the
    configured rules in the order of their declaration and returns the
    label, index and color of the first rule whose condition holds of the
    number; it returns [null] exactly when no rule's condition holds.  On
    [null], [undefined] and NaN it returns [null].  With the rules of
    src/config.js, 75 gives "Working on it" with index 2 and color yellow,
    150 gives "Done" with index 1, 30 gives "Stuck" with index 3 and NaN
    gives [null]. *)
Theorem mapValueToStatus_first_match :
  (forall cfg x s,
      isNaN x = false ->
      (mapValueToStatus cfg (Num x) = Some s <->
       exists before rule after,
         statusMapping cfg = before ++ rule :: after
         /\ Forall (fun r => condition r x = false) before
         /\ condition rule x = true
         /\ s = resolved rule))
  /\ (forall cfg x,
         isNaN x = false ->
         (mapValueToStatus cfg (Num x) = None <->
          Forall (fun r => condition r x = false) (statusMapping cfg)))
  /\ (forall cfg,
         mapValueToStatus cfg Null = None
         /\ mapValueToStatus cfg Undefined = None
         /\ mapValueToStatus cfg (Num NaN) = None)
  /\ mapValueToStatus config (Num (of_Z 75))
     = Some {| status_label := "Working on it"; status_index := 2;
               status_color := "yellow" |}
  /\ mapValueToStatus config (Num (of_Z 150))
     = Some {| status_label := "Done"; status_index := 1;
               status_color := "green" |}
  /\ mapValueToStatus config (Num (of_Z 30))
     = Some {| status_label := "Stuck"; status_index := 3;
               status_color := "red" |}.
Proof.
  split; [|split; [|split]].
  - intros cfg x s Hx. unfold mapValueToStatus. rewrite Hx.
    apply first_status_some.
  - intros cfg x Hx. unfold mapValueToStatus. rewrite Hx.
    apply first_status_none.
  - intros cfg. repeat split.
  - repeat split; vm_compute; reflexivity.
Qed.

Lemma mapValueToStatus_first_match_witness :
  isNaN (of_Z 75) = false
  /\ (mapValueToStatus config (Num (of_Z 75))
      = Some {| status_label := "Working on it"; status_index := 2;
                status_color := "yellow" |} <->
      exists before rule after,
        statusMapping config = before ++ rule :: after
        /\ Forall (fun r => condition r (of_Z 75) = false) before
        /\ condition rule (of_Z 75) = true
        /\ {| status_label := "Working on it"; status_index := 2;
              status_color := "yellow" |} = resolved rule).
Proof.
  split; [reflexivity|].
  apply (proj1 mapValueToStatus_first_match config (of_Z 75)). reflexivity.
Defined.

Lemma remove_chars_filter (cs : list ascii) (s : string) :
  list_ascii_of_string (remove_chars cs s)
  = filter (fun c => negb (existsb (Ascii.eqb c) cs)) (list_ascii_of_string s).
Proof.
  induction s as [|c s IH]; simpl; [reflexivity|].
  destruct (existsb (Ascii.eqb c) cs); simpl; congruence.
Qed.

Lemma remove_chars_decorates (s t : string) :
  decorates s t = true ->
  remove_chars formatting s = remove_chars formatting t.
Proof.
  revert t. induction s as [|c s IH]; intros t H.
  - destruct t; [reflexivity|discriminate].
  - cbn [decorates] in H. apply orb_true_iff in H. destruct H as [H|H].
    + apply andb_true_iff in H. destruct H as [Hc H].
      cbn [remove_chars]. rewrite Hc. auto.
    + destruct t as [|d t]; [discriminate|].
      apply andb_true_iff in H. destruct H as [Hcd H].
      apply Ascii.eqb_eq in Hcd. subst d.
      cbn [remove_chars]. rewrite (IH _ H). reflexivity.
Qed.

Lemma remove_chars_plain (t : string) :
  plain t = true -> remove_chars formatting t = t.
Proof.
  unfold plain. induction t as [|c t IH]; simpl; [reflexivity|].
  intros H. apply andb_true_iff in H. destruct H as [Hc H].
  apply negb_true_iff in Hc. simpl in Hc. rewrite Hc. f_equal. auto.
Qed.

Lemma decorates_remove_chars (s : string) :
  decorates s (remove_chars formatting s) = true.
Proof.
  induction s as [|c s IH]; [reflexivity|].
  cbn [remove_chars decorates].
  destruct (existsb (Ascii.eqb c) formatting); simpl.
  - rewrite IH. reflexivity.
  - rewrite Ascii.eqb_refl. exact IH.
Qed.

Lemma parseFormulaValue_string (s : string) :
  parseFormulaValue (VString s) = read_number (remove_chars formatting s).
Proof. reflexivity. Qed.

(** What [parseFormulaValue] does with each kind of value.  It returns a
    number that is not NaN as it is and [null] for NaN.  From a string it
    removes every [,], [$] and [%] and no other character, trims white
    space, reads the rest with [parseFloat] and returns [null] exactly
    when that gives NaN.  For an input of any other type it returns
    [null]; so it does for [null], [undefined], the object with no field
    and the string "abc". *)
Lemma parseFormulaValue_contract :
  (forall x, parseFormulaValue (VNumber x) = if isNaN x then None else Some x)
  /\ (forall s,
         list_ascii_of_string (remove_chars formatting s)
         = filter (fun c => negb (existsb (Ascii.eqb c) [","; "$"; "%"]%char))
             (list_ascii_of_string s))
  /\ (forall s,
         let parsed := parseFloat (trim (remove_chars formatting s)) in
         parseFormulaValue (VString s)
         = (if isNaN parsed then None else Some parsed)
         /\ (parseFormulaValue (VString s) = None <-> parsed = NaN))
  /\ (forall v,
         typeof v <> "number"%string -> typeof v <> "string"%string ->
         parseFormulaValue v = None)
  /\ parseFormulaValue VNull = None
  /\ parseFormulaValue VUndefined = None
  /\ parseFormulaValue (VObject []) = None
  /\ parseFormulaValue (VString "abc") = None.
Proof.
  split; [reflexivity|]. split; [apply remove_chars_filter|].
  split; [|split].
  - intros s. cbv zeta. split; [reflexivity|].
    rewrite parseFormulaValue_string. unfold read_number, NaN.
    destruct (parseFloat (trim (remove_chars formatting s)));
      simpl; split; congruence.
  - intros v Hn Hs. destruct v; simpl in *; congruence.
  - repeat split.
Qed.

(** C2.  The code does not do what the claim, and the comment above the
    line ("Remove common formatting (commas, currency symbols, etc.)"),
    say of a string with a currency symbol: the class of the regular
    expression holds the dollar sign only.  The pound sign of "£12.50" is
    not removed, and [null] is returned although the string without the
    symbol reads as 12.5. *)
Lemma pound_sign_not_removed :
  remove_chars formatting "£12.50" = "£12.50"%string
  /\ parseFormulaValue (VString "£12.50") = None
  /\ read_number "12.50" = Some (of_decimal false 125 (-1)).
Proof. repeat split. Qed.

(** A string that is a numeral with [,], [$] and [%] characters put in
    is read as the numeral is: [parseFormulaValue] gives the same result
    for both, which is the number [parseFloat] reads in the trimmed
    numeral when no such character is left in it.  So "1,234.5%" gives
    1234.5. *)
Lemma parseFormulaValue_ignores_formatting :
  (forall s t,
      decorates s t = true ->
      parseFormulaValue (VString s) = parseFormulaValue (VString t))
  /\ (forall s t,
         decorates s t = true -> plain t = true ->
         parseFormulaValue (VString s) = read_number t)
  /\ parseFormulaValue (VString "1,234.5%")
     = Some (of_decimal false 12345 (-1)).
Proof.
  split; [|split].
  - intros s t H. rewrite !parseFormulaValue_string.
    rewrite (remove_chars_decorates _ _ H). reflexivity.
  - intros s t H Hp. rewrite parseFormulaValue_string.
    rewrite (remove_chars_decorates _ _ H), (remove_chars_plain _ Hp).
    reflexivity.
  - vm_compute. reflexivity.
Qed.

(** C9.  The code does not do what the claim, and the comment above the
    line ("Remove common formatting (commas, currency symbols, etc.)"),
    say of a numeric string with a currency symbol: the class of the
    regular expression holds the dollar sign only.  The euro sign of
    "€1,234.5" is not removed and [null] is returned, where the numeral
    1234.5 is read from the string without the symbol. *)
Lemma euro_amount_not_read :
  parseFormulaValue (VString "€1,234.5") = None
  /\ parseFormulaValue (VString "1,234.5")
     = Some (of_decimal false 12345 (-1)).
Proof. split; vm_compute; reflexivity. Qed.

(** C4.  [calculateBackoffDelay] of an attempt [a] is the smaller of
    [initialDelayMs * backoffMultiplier ^ a] and [maxDelayMs].  With the
    policy of src/config.js the attempts 0, 1, 2 and 3 wait 1000, 2000,
    4000 and 8000 milliseconds and every attempt from 4 on waits 10000. *)
Theorem calculateBackoffDelay_schedule :
  (forall cfg a,
      calculateBackoffDelay cfg a
      = Z.min (initialDelayMs (rateLimit cfg)
               * backoffMultiplier (rateLimit cfg) ^ Z.of_nat a)
              (maxDelayMs (rateLimit cfg)))
  /\ initialDelayMs (rateLimit config) = 1000%Z
  /\ backoffMultiplier (rateLimit config) = 2%Z
  /\ maxDelayMs (rateLimit config) = 10000%Z
  /\ map (calculateBackoffDelay config) [0; 1; 2; 3]%nat
     = [1000; 2000; 4000; 8000]%Z
  /\ (forall a, (4 <= a)%nat -> calculateBackoffDelay config a = 10000%Z).
Proof.
  repeat split.
  intros a Ha. unfold calculateBackoffDelay.
  change (initialDelayMs (rateLimit config)) with 1000%Z.
  change (backoffMultiplier (rateLimit config)) with 2%Z.
  change (maxDelayMs (rateLimit config)) with 10000%Z.
  apply Z.min_r.
  replace (Z.of_nat a) with (4 + Z.of_nat (a - 4))%Z by lia.
  rewrite Z.pow_add_r by lia.
  change (2 ^ 4)%Z with 16%Z.
  assert (0 < 2 ^ Z.of_nat (a - 4))%Z by (apply Z.pow_pos_nonneg; lia).
  lia.
Qed.

Lemma calculateBackoffDelay_schedule_witness :
  (4 <= 7)%nat /\ calculateBackoffDelay config 7 = 10000%Z.
Proof.
  assert (H : (4 <= 7)%nat) by lia.
  split; [exact H|].
  exact (proj2 (proj2 (proj2 (proj2 (proj2 calculateBackoffDelay_schedule))))
           7%nat H).
Defined.

(** C5, as the code has it.  [shouldProcessEvent] returns [false] for an
    event whose [columnType] is truthy and is in the configured list of
    ignored types; it returns [false] for one whose [columnType] is
    truthy and is not in the configured list of formula types; it returns
    [true] for every other event, so for every event whose [columnType]
    is falsy: missing, [null], [false], a zero, NaN or the empty string.
    With the lists of src/config.js, "status" is refused, "formula" is
    accepted, and an event without [columnType] is accepted. *)
Theorem shouldProcessEvent_policy :
  (forall cfg event,
      truthy (columnType event) = true ->
      includes (ignoreColumnTypes cfg) (columnType event) = true ->
      shouldProcessEvent cfg event = false)
  /\ (forall cfg event,
         truthy (columnType event) = true ->
         includes (formulaColumnTypes cfg) (columnType event) = false ->
         shouldProcessEvent cfg event = false)
  /\ (forall cfg event,
         ~ (truthy (columnType event) = true
            /\ includes (ignoreColumnTypes cfg) (columnType event) = true) ->
         ~ (truthy (columnType event) = true
            /\ includes (formulaColumnTypes cfg) (columnType event) = false) ->
         shouldProcessEvent cfg event = true)
  /\ (forall cfg event,
         truthy (columnType event) = false ->
         shouldProcessEvent cfg event = true)
  /\ ignoreColumnTypes config = ["status"%string]
  /\ formulaColumnTypes config = ["formula"%string]
  /\ (forall event,
         columnType event = VString "status" ->
         shouldProcessEvent config event = false)
  /\ (forall event,
         columnType event = VString "formula" ->
         shouldProcessEvent config event = true)
  /\ (forall event,
         columnType event = VUndefined ->
         shouldProcessEvent config event = true).
Proof.
  split; [|split; [|split; [|split]]].
  - intros cfg event Ht Hi. unfold shouldProcessEvent. rewrite Ht, Hi.
    reflexivity.
  - intros cfg event Ht Hf. unfold shouldProcessEvent. rewrite Ht, Hf.
    destruct (includes (ignoreColumnTypes cfg) (columnType event));
      reflexivity.
  - intros cfg event H1 H2. unfold shouldProcessEvent.
    destruct (truthy (columnType event)); [|reflexivity].
    destruct (includes (ignoreColumnTypes cfg) (columnType event));
      [exfalso; auto|].
    destruct (includes (formulaColumnTypes cfg) (columnType event));
      [reflexivity|exfalso; auto].
  - intros cfg event Ht. unfold shouldProcessEvent. rewrite Ht. reflexivity.
  - repeat split; intros event H; unfold shouldProcessEvent; rewrite H;
      reflexivity.
Qed.

Lemma shouldProcessEvent_policy_witness :
  truthy (columnType (event_with (VString "status"))) = true
  /\ includes (ignoreColumnTypes config)
       (columnType (event_with (VString "status"))) = true
  /\ shouldProcessEvent config (event_with (VString "status")) = false.
Proof.
  split; [reflexivity|]. split; [reflexivity|].
  apply (proj1 shouldProcessEvent_policy); reflexivity.
Defined.

(** C5, as stated, fails on an event whose [columnType] is present and
    falsy: the empty string is a column type that is not in the list of
    formula types, and the event is accepted, not refused. *)
Lemma empty_column_type_accepted :
  let event := event_with (VString "") in
  ~ (columnType event <> VUndefined ->
     includes (formulaColumnTypes config) (columnType event) = false ->
     shouldProcessEvent config event = false).
Proof.
  intros event H.
  assert (Hp : columnType event <> VUndefined) by discriminate.
  specialize (H Hp eq_refl). discriminate H.
Qed.

(* ===================================================================== *)
(** ** src/mondayClient.js: the retry loop *)
(* ===================================================================== *)

Section ExecuteQuery.
Variable cfg : Config.t.
Variable JSON_stringify : value -> string.
Variable server : nat -> outcome.


Lemma executeQuery_rejected query variables retryCount w :
  server (sent w) = Rejected ->
  executeQuery cfg JSON_stringify server query variables retryCount w
  = (Throw NetworkError, after_fetch query variables w).
Proof.
  intros H. rewrite executeQuery_equation_1, H. reflexivity.
Qed.

Lemma executeQuery_invalid_json query variables retryCount w status :
  server (sent w) = Response status None ->
  executeQuery cfg JSON_stringify server query variables retryCount w
  = (Throw InvalidJson, after_fetch query variables w).
Proof.
  intros H. rewrite executeQuery_equation_1, H. reflexivity.
Qed.

Lemma executeQuery_retry query variables retryCount w data :
  server (sent w) = Response 429 (Some data) ->
  retryCount < maxRetries (rateLimit cfg) ->
  executeQuery cfg JSON_stringify server query variables retryCount w
  = executeQuery cfg JSON_stringify server query variables (retryCount + 1)
      (emit (Sleep (calculateBackoffDelay cfg retryCount))
         (after_fetch query variables w)).
Proof.
  intros H Hlt. rewrite executeQuery_equation_1, H. simpl.
  destruct (lt_dec retryCount (maxRetries (rateLimit cfg)));
    [reflexivity|contradiction].
Qed.

Lemma executeQuery_exhausted query variables retryCount w data :
  server (sent w) = Response 429 (Some data) ->
  maxRetries (rateLimit cfg) <= retryCount ->
  executeQuery cfg JSON_stringify server query variables retryCount w
  = (Throw (Error "Rate limit exceeded. Max retries reached."),
     after_fetch query variables w).
Proof.
  intros H Hge. rewrite executeQuery_equation_1, H. simpl.
  destruct (lt_dec retryCount (maxRetries (rateLimit cfg)));
    [lia|reflexivity].
Qed.

Lemma executeQuery_answered query variables retryCount w status data :
  server (sent w) = Response status (Some data) ->
  status <> 429%Z ->
  executeQuery cfg JSON_stringify server query variables retryCount w
  = (match get data "errors" with
     | Throw e => Throw e
     | Ok errors =>
         if truthy errors then
           Throw (Error ("Monday API error: " ++ JSON_stringify errors))
         else if negb (ok status) then
           Throw (Error ("HTTP error! status: " ++ string_of_Z status))
         else get data "data"
     end, after_fetch query variables w).
Proof.
  intros H Hs. rewrite executeQuery_equation_1, H. simpl.
  destruct (Z.eqb_spec status 429); [contradiction|reflexivity].
Qed.

End ExecuteQuery.

(** A call of [executeQuery] only sends requests and sleeps: it adds such
    events to the trace, a request first, and queues no callback. *)
Lemma executeQuery_trace cfg JSON_stringify server query variables
    retryCount w :
  exists evs,
    trace (snd (executeQuery cfg JSON_stringify server query variables
                  retryCount w))
    = trace w ++ Fetch query variables :: evs
    /\ forallb remote_step evs = true
    /\ immediates (snd (executeQuery cfg JSON_stringify server query
                          variables retryCount w))
       = immediates w.
Proof.
  apply (executeQuery_elim cfg JSON_stringify server
           (fun query variables retryCount w res =>
              exists evs,
                trace (snd res) = trace w ++ Fetch query variables :: evs
                /\ forallb remote_step evs = true
                /\ immediates (snd res) = immediates w)).
  - intros q v r w0 _. exists []. repeat split.
  - intros q v r w0 status _. exists []. repeat split.
  - intros q v r w0 status data _ _. exists []. repeat split.
  - intros q v r Hlt w0 status data IH _ _ _. cbv zeta in *.
    destruct IH as (evs & Ht & Hr & Hi).
    exists (Sleep (calculateBackoffDelay cfg r) :: Fetch q v :: evs).
    rewrite Ht, Hi. simpl. rewrite <- !app_assoc. simpl.
    repeat split. exact Hr.
  - intros q v r Hge w0 status data _ _ _. exists []. repeat split.
Qed.

(** The answers of [executeQuery] to a response whose body is JSON.
    On status 429, whatever the body carries, the call waits
    [calculateBackoffDelay retryCount] milliseconds and sends the same
    query again with [retryCount + 1] while [retryCount < maxRetries], and
    fails with "Rate limit exceeded" once [retryCount] has reached
    [maxRetries].  On any other status, a body with truthy [errors] fails
    the call at once with "Monday API error" and the error entries; a body
    without them fails it at once with "HTTP error" and the status when
    the status is not a success, and gives its [data] field when it is.
    A call that fails at once has sent one request and has not slept. *)
Lemma executeQuery_state_machine cfg JSON_stringify server query variables
    retryCount w status data :
  server (sent w) = Response status (Some data) ->
  let run := executeQuery cfg JSON_stringify server query variables in
  (status = 429%Z -> retryCount < maxRetries (rateLimit cfg) ->
   run retryCount w
   = run (retryCount + 1)
       (emit (Sleep (calculateBackoffDelay cfg retryCount))
          (after_fetch query variables w)))
  /\ (status = 429%Z -> maxRetries (rateLimit cfg) <= retryCount ->
      run retryCount w
      = (Throw (Error "Rate limit exceeded. Max retries reached."),
         after_fetch query variables w))
  /\ (forall errors,
         status <> 429%Z -> get data "errors" = Ok errors ->
         truthy errors = true ->
         run retryCount w
         = (Throw (Error ("Monday API error: " ++ JSON_stringify errors)),
            after_fetch query variables w))
  /\ (forall errors,
         status <> 429%Z -> get data "errors" = Ok errors ->
         truthy errors = false -> ok status = false ->
         run retryCount w
         = (Throw (Error ("HTTP error! status: " ++ string_of_Z status)),
            after_fetch query variables w))
  /\ (forall errors,
         get data "errors" = Ok errors ->
         truthy errors = false -> ok status = true ->
         run retryCount w = (get data "data", after_fetch query variables w)).
Proof.
  intros H run. subst run. repeat split.
  - intros ->. apply executeQuery_retry with (data := data). exact H.
  - intros ->. apply executeQuery_exhausted with (data := data). exact H.
  - intros errors Hs He Ht.
    rewrite (executeQuery_answered _ _ _ _ _ _ _ _ _ H Hs), He, Ht.
    reflexivity.
  - intros errors Hs He Ht Hok.
    rewrite (executeQuery_answered _ _ _ _ _ _ _ _ _ H Hs), He, Ht, Hok.
    reflexivity.
  - intros errors He Ht Hok.
    assert (Hs : status <> 429%Z) by (intros ->; discriminate).
    rewrite (executeQuery_answered _ _ _ _ _ _ _ _ _ H Hs), He, Ht, Hok.
    reflexivity.
Qed.

(** Against an API that answers 429 with JSON every time, the call sends
    [maxRetries + 1] requests, waits 1000, 2000 and 4000 milliseconds
    between them and fails. *)
Lemma executeQuery_always_429 JSON_stringify query variables :
  executeQuery config JSON_stringify
    (fun _ => Response 429 (Some (VObject []))) query variables 0 start
  = (Throw (Error "Rate limit exceeded. Max retries reached."),
     {| sent := 4;
        trace := [Fetch query variables; Sleep 1000;
                  Fetch query variables; Sleep 2000;
                  Fetch query variables; Sleep 4000;
                  Fetch query variables];
        immediates := [] |}).
Proof.
  rewrite (executeQuery_retry _ _ _ _ _ _ _ (VObject []))
    by (reflexivity || (simpl; lia)).
  rewrite (executeQuery_retry _ _ _ _ _ _ _ (VObject []))
    by (reflexivity || (simpl; lia)).
  rewrite (executeQuery_retry _ _ _ _ _ _ _ (VObject []))
    by (reflexivity || (simpl; lia)).
  rewrite (executeQuery_exhausted _ _ _ _ _ _ _ (VObject []))
    by (reflexivity || (simpl; lia)).
  reflexivity.
Qed.

(** A response that carries error entries under status 429 does not fail
    the call at once: the status is read first.  With retries left the
    call sleeps and asks again, and here the second answer makes it
    succeed. *)
Lemma rate_limited_errors_retried :
  let limited :=
    VObject [("errors", VArray [VString "Rate limit exceeded"])] in
  let server := fun n : nat =>
    match n with
    | O => Response 429 (Some limited)
    | _ => Response 200 (Some (VObject [("data", VObject [])]))
    end in
  truthy (lookup "errors" [("errors", VArray [VString "Rate limit exceeded"])])
  = true
  /\ executeQuery config (fun _ => EmptyString) server "q" VNull 0 start
     = (Ok (VObject []),
        {| sent := 2;
           trace := [Fetch "q" VNull; Sleep 1000; Fetch "q" VNull];
           immediates := [] |}).
Proof.
  intros limited server. split; [reflexivity|].
  rewrite (executeQuery_retry _ _ _ _ _ _ _ limited)
    by (reflexivity || (simpl; lia)).
  rewrite (executeQuery_answered _ _ _ _ _ _ _ 200%Z
             (VObject [("data", VObject [])]))
    by (reflexivity || discriminate).
  reflexivity.
Qed.

(** C3.  The code does not do what the claim says of a status 429 when
    the body of the response is not JSON, as the page of a gateway is.
    The code awaits [response.json()] before it reads the status, so that
    the 429 is not seen: the first call ([retryCount] is 0, with 3 retries
    allowed) does not wait and ask again, it fails at once with the error
    of [response.json()], after one request and no wait. *)
Lemma executeQuery_429_not_json_not_retried :
  forall JSON_stringify query variables,
    gateway_429 (sent start) = Response 429 None
    /\ (0 < maxRetries (rateLimit config))%nat
    /\ executeQuery config JSON_stringify gateway_429 query variables 0 start
       = (Throw InvalidJson,
          {| sent := 1; trace := [Fetch query variables];
             immediates := [] |}).
Proof.
  intros. split; [reflexivity|]. split; [simpl; lia|].
  rewrite (executeQuery_invalid_json _ _ _ _ _ _ _ 429%Z); reflexivity.
Qed.

(* ===================================================================== *)
(** ** The payload normalizer *)
(* ===================================================================== *)

Lemma validateWebhookPayload_never_throws (payload : value) :
  exists b, validateWebhookPayload payload = Ok b.
Proof.
  destruct payload as [| |b|x|s|items|fields]; cbn; eauto.
  - destruct b; cbn; eauto.
  - destruct x; cbn; eauto.
  - destruct s; cbn; eauto.
  - destruct (truthy (lookup "event" fields)); cbn; eauto.
Qed.

Lemma validateWebhookPayload_true (payload : value) :
  validateWebhookPayload payload = Ok true <->
  exists fields,
    payload = VObject fields /\ truthy (lookup "event" fields) = true.
Proof.
  split.
  - destruct payload as [| |b|x|s|items|fields]; cbn; try discriminate.
    + destruct b; cbn; discriminate.
    + destruct x; cbn; discriminate.
    + destruct s; cbn; discriminate.
    + destruct (truthy (lookup "event" fields)) eqn:E; cbn;
        [eauto|discriminate].
  - intros (fields & -> & H). cbn. rewrite H. reflexivity.
Qed.

Lemma get_defined (v : value) (k : string) :
  truthy v = true -> exists x, get v k = Ok x.
Proof. destruct v; cbn; try discriminate; eauto. Qed.

Lemma extractEventData_valid (payload : value) :
  validateWebhookPayload payload = Ok true ->
  exists data, extractEventData payload = Some data.
Proof.
  intros H. apply validateWebhookPayload_true in H.
  destruct H as (fields & -> & Ht).
  unfold extractEventData, extractEventData_try. cbn [get bind].
  set (event := lookup "event" fields) in *.
  destruct (get_defined event "boardId" Ht) as [x1 ->].
  destruct (get_defined event "pulseId" Ht) as [x2 ->].
  destruct (get_defined event "itemId" Ht) as [x3 ->].
  destruct (get_defined event "columnId" Ht) as [x4 ->].
  destruct (get_defined event "columnType" Ht) as [x5 ->].
  destruct (get_defined event "value" Ht) as [x6 ->].
  destruct (get_defined event "previousValue" Ht) as [x7 ->].
  destruct (get_defined event "userId" Ht) as [x8 ->].
  cbn [bind]. destruct (truthy x1), (truthy x2); cbn [bind]; eauto.
Qed.

(* ===================================================================== *)
(** ** The signature verifier *)
(* ===================================================================== *)

Lemma hmac_sha256_hex_length (key data : string) :
  String.length (Crypto.hmac_sha256_hex key data) = 64.
Proof.
  unfold Crypto.hmac_sha256_hex.
  generalize (Crypto.hmac_state (Crypto.bytes_of_string key)
                (Crypto.bytes_of_string data)).
  intros s. reflexivity.
Qed.

Lemma present_some (x : option string) (s : string) :
  present x = Some s <-> x = Some s /\ s <> EmptyString.
Proof.
  destruct x as [[|c r]|]; simpl.
  - split; [discriminate|]. intros [[= <-] H]. congruence.
  - split.
    + intros [= <-]. split; [reflexivity|discriminate].
    + intros [H _]. exact H.
  - split; [discriminate|]. intros [H _]. discriminate.
Qed.

Lemma verifyWebhookSignature_secret env JSON_stringify req secret :
  present (MONDAY_SIGNING_SECRET env) = Some secret ->
  verifyWebhookSignature env JSON_stringify req = true <->
  authorization req
  = Some (Crypto.hmac_sha256_hex secret (JSON_stringify (body req))).
Proof.
  intros Hs. unfold verifyWebhookSignature. rewrite Hs.
  destruct (present (authorization req)) as [signature|] eqn:Ha.
  - apply present_some in Ha. destruct Ha as [Ha _]. rewrite Ha.
    rewrite String.eqb_eq. split; congruence.
  - split; [discriminate|]. intros H. rewrite H in Ha.
    pose proof (hmac_sha256_hex_length secret (JSON_stringify (body req)))
      as Hl.
    destruct (Crypto.hmac_sha256_hex secret (JSON_stringify (body req)));
      simpl in *; discriminate.
Qed.

(** C7.  With a signing secret set, the verifier accepts a request exactly
    when its [authorization] header is the lower-case hexadecimal
    HMAC-SHA-256 of the serialized body under the secret: any other
    header, and a missing one, is refused.  With no secret set every
    request is accepted.  The verifier is a total function to booleans: it
    throws nothing.  With the secret "s3cr3t" and a body serialized as
    the text of the object with the one field a equal to 1, the one header
    accepted is d42927434049e0b8c73ce887062238cc1c6bb6644bfe66e66d8dd0f30b85679e. *)
Theorem verifyWebhookSignature_hmac :
  (forall env JSON_stringify req secret,
      present (MONDAY_SIGNING_SECRET env) = Some secret ->
      (verifyWebhookSignature env JSON_stringify req = true <->
       authorization req
       = Some (Crypto.hmac_sha256_hex secret (JSON_stringify (body req)))))
  /\ (forall env JSON_stringify req,
         present (MONDAY_SIGNING_SECRET env) = None ->
         verifyWebhookSignature env JSON_stringify req = true)
  /\ (forall env JSON_stringify req,
         MONDAY_SIGNING_SECRET env = Some "s3cr3t"%string ->
         JSON_stringify (body req)
         = ("{" ++ dquote ++ "a" ++ dquote ++ ":1}")%string ->
         (verifyWebhookSignature env JSON_stringify req = true <->
          authorization req
          = Some "d42927434049e0b8c73ce887062238cc1c6bb6644bfe66e66d8dd0f30b85679e"%string)).
Proof.
  split; [|split].
  - intros env js req secret. apply verifyWebhookSignature_secret.
  - intros env js req H. unfold verifyWebhookSignature. rewrite H.
    reflexivity.
  - intros env js req Hs Hb.
    rewrite (verifyWebhookSignature_secret env js req "s3cr3t")
      by (rewrite Hs; reflexivity).
    rewrite Hb.
    replace (Crypto.hmac_sha256_hex "s3cr3t"
               ("{" ++ dquote ++ "a" ++ dquote ++ ":1}")%string)
      with "d42927434049e0b8c73ce887062238cc1c6bb6644bfe66e66d8dd0f30b85679e"%string
      by (vm_compute; reflexivity).
    reflexivity.
Qed.

Lemma verifyWebhookSignature_hmac_witness :
  let env := {| MONDAY_SIGNING_SECRET := Some "s3cr3t"%string;
                STATUS_COLUMN_ID := None |} in
  let JSON_stringify := fun _ : value =>
    ("{" ++ dquote ++ "a" ++ dquote ++ ":1}")%string in
  let req := {|
    authorization :=
      Some "d42927434049e0b8c73ce887062238cc1c6bb6644bfe66e66d8dd0f30b85679e"%string;
    body := VObject [("a"%string, VNumber (of_Z 1))] |} in
  present (MONDAY_SIGNING_SECRET env) = Some "s3cr3t"%string
  /\ verifyWebhookSignature env JSON_stringify req = true.
Proof.
  intros env js req.
  assert (H : present (MONDAY_SIGNING_SECRET env) = Some "s3cr3t"%string)
    by reflexivity.
  split; [exact H|].
  apply (proj1 verifyWebhookSignature_hmac env js req "s3cr3t"%string H).
  vm_compute. reflexivity.
Defined.

(* ===================================================================== *)
(** ** The orchestrator *)
(* ===================================================================== *)

Lemma remote_async (evs : list event) :
  forallb remote_step evs = true -> forallb async_step evs = true.
Proof.
  induction evs as [|e evs IH]; simpl; [reflexivity|].
  intros H. apply andb_true_iff in H. destruct H as [He H].
  rewrite (IH H). destruct e; try discriminate; reflexivity.
Qed.

Lemma no_toString_nullish (v : value) :
  no_toString v = false -> nullish v = false.
Proof.
  unfold no_toString. intros H. apply orb_false_iff in H. tauto.
Qed.

Lemma to_string_defined toString (v : value) :
  no_toString v = false -> to_string toString v = Ok (VString (toString v)).
Proof.
  unfold no_toString, to_string. intros H. apply orb_false_iff in H.
  destruct H as [Hn Ht].
  destruct v; try discriminate; simpl in *; try rewrite Ht; reflexivity.
Qed.

Lemma to_string_throws toString (v : value) :
  no_toString v = true -> to_string toString v = Throw TypeError.
Proof.
  unfold no_toString, to_string. intros H.
  destruct v; try reflexivity; simpl in H; try discriminate; simpl;
    rewrite H; reflexivity.
Qed.

(** The task enters the value mapper and then, at most, the client: it
    sends no response and queues nothing. *)
Lemma processWebhookEvent_trace cfg env JSON_stringify toString server
    eventData w :
  exists evs,
    trace (processWebhookEvent cfg env JSON_stringify toString server
             eventData w)
    = trace w ++ Run ValueMapper :: evs
    /\ forallb async_step evs = true.
Proof.
  unfold processWebhookEvent.
  destruct (parseFormulaValue (value_ eventData)) as [x|];
    [|exists []; split; reflexivity].
  destruct (mapValueToStatus cfg (Num x)) as [status|];
    [|exists []; split; reflexivity].
  unfold updateStatusColumn.
  destruct (to_string toString (boardId eventData)) as [board|];
    [|exists [Run RemoteUpdateClient]; simpl; rewrite <- app_assoc;
      split; reflexivity].
  destruct (to_string toString (itemId eventData)) as [item|];
    [|exists [Run RemoteUpdateClient]; simpl; rewrite <- app_assoc;
      split; reflexivity].
  match goal with
  | |- context [executeQuery ?c ?j ?s ?q ?v ?r ?w0] =>
      destruct (executeQuery_trace c j s q v r w0) as (evs & Ht & Hr & _);
      exists (Run RemoteUpdateClient :: Fetch q v :: evs)
  end.
  rewrite Ht. simpl. rewrite <- !app_assoc. simpl.
  split; [reflexivity|]. apply remote_async. exact Hr.
Qed.

(** The trace of a request: the checks of the handler, the response the
    order of the checks picks, and then what the task does. *)
Lemma serve_trace cfg env JSON_stringify toString server req :
  exists sync async,
    trace (serve cfg env JSON_stringify toString server req)
    = sync ++ Respond (fst (expected_response cfg env JSON_stringify req))
                      (snd (expected_response cfg env JSON_stringify req))
           :: async
    /\ forallb sync_step sync = true
    /\ forallb async_step async = true
    /\ (async <> [] ->
        expected_response cfg env JSON_stringify req
        = (200%Z, json_message "Webhook received")).
Proof.
  unfold serve, webhook, expected_response.
  destruct (verifyWebhookSignature env JSON_stringify req); simpl negb;
    cbv iota.
  2:{ exists [Run SignatureVerifier], []. repeat split. congruence. }
  destruct (validateWebhookPayload (body req)) as [[|]|e] eqn:Hv.
  - destruct (extractEventData_valid _ Hv) as [data ->].
    destruct (shouldProcessEvent cfg data); simpl negb; cbv iota.
    + unfold run_immediates, setImmediate. simpl.
      match goal with
      | |- context [processWebhookEvent ?c ?e ?j ?t ?s ?d ?w0] =>
          destruct (processWebhookEvent_trace c e j t s d w0)
            as (evs & Ht & Ha)
      end.
      rewrite Ht. simpl.
      exists [Run SignatureVerifier; Run PayloadNormalizer; Run EventFilter],
        (SetImmediate :: Run ValueMapper :: evs).
      repeat split. exact Ha.
    + exists [Run SignatureVerifier; Run PayloadNormalizer; Run EventFilter],
        []. repeat split. congruence.
  - exists [Run SignatureVerifier; Run PayloadNormalizer], [].
    repeat split. congruence.
  - destruct (validateWebhookPayload_never_throws (body req)) as [b Hb].
    congruence.
Qed.

(** The one response of a trace is where every cut at a response is. *)
Lemma response_unique (sync async before after : list event)
    (r r' : event) :
  forallb sync_step sync = true ->
  forallb async_step async = true ->
  is_response r = true -> is_response r' = true ->
  sync ++ r :: async = before ++ r' :: after ->
  before = sync /\ r' = r /\ after = async.
Proof.
  intros Hs Ha Hr Hr'. revert before.
  induction sync as [|e sync IH]; intros before E.
  - destruct before as [|b before]; simpl in E.
    + injection E as -> ->. auto.
    + injection E as <- E. exfalso.
      assert (Hin : In r' async) by (rewrite E; apply in_elt).
      rewrite forallb_forall in Ha. specialize (Ha _ Hin).
      destruct r'; discriminate.
  - simpl in Hs. apply andb_true_iff in Hs. destruct Hs as [He Hs].
    destruct before as [|b before]; simpl in E.
    + injection E as -> E. destruct r'; discriminate.
    + injection E as <- E. destruct (IH Hs _ E) as (-> & -> & ->). auto.
Qed.

Lemma sync_no_response (evs : list event) :
  forallb sync_step evs = true ->
  forallb (fun e => negb (is_response e) && negb (remote_step e)) evs = true.
Proof.
  induction evs as [|e evs IH]; simpl; [reflexivity|].
  intros H. apply andb_true_iff in H. destruct H as [He H].
  rewrite (IH H). destruct e; try discriminate; reflexivity.
Qed.

Lemma async_no_response (evs : list event) :
  forallb async_step evs = true ->
  forallb (fun e => negb (is_response e)) evs = true.
Proof.
  induction evs as [|e evs IH]; simpl; [reflexivity|].
  intros H. apply andb_true_iff in H. destruct H as [He H].
  rewrite (IH H). destruct e; try discriminate; reflexivity.
Qed.

Lemma filter_none {A} (f : A -> bool) (l : list A) :
  forallb (fun x => negb (f x)) l = true -> filter f l = [].
Proof.
  induction l as [|x l IH]; simpl; [reflexivity|].
  intros H. apply andb_true_iff in H. destruct H as [Hx H].
  apply negb_true_iff in Hx. rewrite Hx. auto.
Qed.

Lemma serve_responses cfg env JSON_stringify toString server req :
  filter is_response
    (trace (serve cfg env JSON_stringify toString server req))
  = [Respond (fst (expected_response cfg env JSON_stringify req))
             (snd (expected_response cfg env JSON_stringify req))].
Proof.
  destruct (serve_trace cfg env JSON_stringify toString server req)
    as (sync & async & -> & Hs & Ha & _).
  rewrite filter_app. simpl.
  rewrite (filter_none is_response async (async_no_response _ Ha)).
  rewrite (filter_none is_response sync).
  - reflexivity.
  - apply sync_no_response in Hs. rewrite forallb_forall in *.
    intros e He. specialize (Hs e He). apply andb_true_iff in Hs. tauto.
Qed.

(** The request of the examples from end to end: the handler answers 200,
    then the task reads 85, maps it to "Working on it" and sends one
    mutation that sets the status column of item 123 on board 456 to the
    index 2. *)
Lemma serve_formula_changed JSON_stringify toString :
  (forall s, toString (VString s) = s) ->
  serve config no_secret JSON_stringify toString
    (fun _ => Response 200 (Some (VObject [("data", VObject [])])))
    formula_changed
  = {| sent := 1;
       trace := [
         Run SignatureVerifier; Run PayloadNormalizer; Run EventFilter;
         Respond 200 (json_message "Webhook received"); SetImmediate;
         Run ValueMapper; Run RemoteUpdateClient;
         Fetch change_column_value
           (VObject [("boardId", VString "456"); ("itemId", VString "123");
                     ("columnId", VString "status");
                     ("value", VString (JSON_stringify
                        (VObject [("index", VNumber (of_Z 2))])))]) ];
       immediates := [] |}.
Proof.
  intros H.
  unfold serve, webhook, run_immediates. cbn -[executeQuery of_Z].
  unfold processWebhookEvent.
  replace (parseFormulaValue (value_ _)) with (Some (of_Z 85))
    by (vm_compute; reflexivity).
  replace (mapValueToStatus config (Num (of_Z 85)))
    with (Some {| status_label := "Working on it"; status_index := 2;
                  status_color := "yellow" |})
    by (vm_compute; reflexivity).
  unfold updateStatusColumn. cbn -[executeQuery of_Z]. rewrite !H.
  rewrite (executeQuery_answered _ _ _ _ _ _ _ 200%Z
             (VObject [("data", VObject [])]))
    by (reflexivity || discriminate).
  reflexivity.
Qed.

Lemma serve_received cfg env JSON_stringify toString server req eventData :
  verifyWebhookSignature env JSON_stringify req = true ->
  validateWebhookPayload (body req) = Ok true ->
  extractEventData (body req) = Some eventData ->
  shouldProcessEvent cfg eventData = true ->
  serve cfg env JSON_stringify toString server req
  = processWebhookEvent cfg env JSON_stringify toString server eventData
      {| sent := 0;
         trace := [Run SignatureVerifier; Run PayloadNormalizer;
                   Run EventFilter;
                   Respond 200 (json_message "Webhook received");
                   SetImmediate];
         immediates := [] |}.
Proof.
  intros Hv Hp He Hf. unfold serve, webhook. rewrite Hv, Hp, He, Hf.
  reflexivity.
Qed.

Lemma serve_cut cfg env JSON_stringify toString server req
    before status body after :
  trace (serve cfg env JSON_stringify toString server req)
  = before ++ Respond status body :: after ->
  forallb sync_step before = true
  /\ forallb async_step after = true
  /\ (status, body) = expected_response cfg env JSON_stringify req.
Proof.
  destruct (serve_trace cfg env JSON_stringify toString server req)
    as (sync & async & -> & Hs & Ha & _).
  intros E.
  destruct (response_unique sync async before after (Respond _ _)
              (Respond status body) Hs Ha eq_refl eq_refl E)
    as (-> & Hr & ->).
  injection Hr as -> ->.
  destruct (expected_response cfg env JSON_stringify req). auto.
Qed.

(** C6.  The one response to a request is picked by the first check that
    fails, in this order: a signature that does not verify gives 401; a
    payload that does not validate gives 400; a payload with no event
    data gives 400; an event the filter refuses gives 200 with "Event
    ignored"; every other request gives 200 with "Webhook received".
    No request is sent to the remote API before the response, and the
    response is the same whatever the remote API answers afterwards. *)
Theorem webhook_response_order :
  forall cfg env JSON_stringify toString server req,
    let responses server :=
      filter is_response
        (trace (serve cfg env JSON_stringify toString server req)) in
    let verified := verifyWebhookSignature env JSON_stringify req in
    let valid := validateWebhookPayload (body req) in
    let extracted := extractEventData (body req) in
    (verified = false ->
     responses server = [Respond 401 (json_error "Invalid signature")])
    /\ (verified = true -> valid <> Ok true ->
        responses server = [Respond 400 (json_error "Invalid payload")])
    /\ (verified = true -> valid = Ok true -> extracted = None ->
        responses server = [Respond 400 (json_error "Invalid event data")])
    /\ (forall eventData,
           verified = true -> valid = Ok true ->
           extracted = Some eventData ->
           shouldProcessEvent cfg eventData = false ->
           responses server = [Respond 200 (json_message "Event ignored")])
    /\ (forall eventData,
           verified = true -> valid = Ok true ->
           extracted = Some eventData ->
           shouldProcessEvent cfg eventData = true ->
           responses server
           = [Respond 200 (json_message "Webhook received")])
    /\ (forall before status body after,
           trace (serve cfg env JSON_stringify toString server req)
           = before ++ Respond status body :: after ->
           forallb (fun e => negb (remote_step e)) before = true)
    /\ (forall server', responses server' = responses server).
Proof.
  intros cfg env js ts server req responses verified valid extracted.
  assert (R : forall server0,
             responses server0
             = [Respond (fst (expected_response cfg env js req))
                        (snd (expected_response cfg env js req))])
    by (intros; apply serve_responses).
  unfold expected_response in R.
  fold verified valid extracted in R.
  repeat split.
  - intros H. rewrite R, H. reflexivity.
  - intros H Hv. rewrite R, H. simpl.
    destruct valid as [[|]|]; [congruence|reflexivity|reflexivity].
  - intros H Hv He. rewrite R, H, Hv, He. reflexivity.
  - intros d H Hv He Hf. rewrite R, H, Hv, He, Hf. reflexivity.
  - intros d H Hv He Hf. rewrite R, H, Hv, He, Hf. reflexivity.
  - intros before status body after E.
    apply serve_cut in E. destruct E as (Hs & _).
    apply sync_no_response in Hs. rewrite forallb_forall in *.
    intros e He. specialize (Hs e He). apply andb_true_iff in Hs. tauto.
  - intros server'. rewrite !R. reflexivity.
Qed.

Lemma webhook_response_order_witness :
  let stringify := fun _ : value => EmptyString in
  let unreachable := fun _ : nat => Rejected in
  verifyWebhookSignature no_secret stringify formula_changed = true
  /\ validateWebhookPayload (body formula_changed) = Ok true
  /\ (exists eventData,
         extractEventData (body formula_changed) = Some eventData
         /\ shouldProcessEvent config eventData = true)
  /\ filter is_response
       (trace (serve config no_secret stringify stringify unreachable
                 formula_changed))
     = [Respond 200 (json_message "Webhook received")].
Proof.
  intros stringify unreachable.
  assert (H1 : verifyWebhookSignature no_secret stringify formula_changed
               = true) by reflexivity.
  assert (H2 : validateWebhookPayload (body formula_changed) = Ok true)
    by reflexivity.
  split; [exact H1|]. split; [exact H2|].
  split; [eexists; split; reflexivity|].
  eapply (proj1 (proj2 (proj2 (proj2 (proj2
            (webhook_response_order config no_secret stringify stringify
               unreachable formula_changed)))))).
  - exact H1.
  - exact H2.
  - reflexivity.
  - reflexivity.
Defined.

(** C8, as the code has it.  A request that passes the signature check,
    the validation and the event filter is answered 200 "Webhook
    received"; the handler then hands the task to [setImmediate], and the
    task is performed after the response: the value mapper is entered
    next; when the value of the event parses and a rule gives it a
    status, the remote update client is entered next, and when the board
    id and the item id have their strings, the mutation for that status
    is sent to the remote API next.  The value mapper and the remote
    update client are entered at no other time: not before a response,
    and only after the response "Webhook received".  The event filter is
    not deferred: whenever it runs, it runs before the response, which
    its verdict picks. *)
Theorem mapper_and_client_deferred :
  forall cfg env JSON_stringify toString server req,
    let tr := trace (serve cfg env JSON_stringify toString server req) in
    deferred ValueMapper tr
    /\ deferred RemoteUpdateClient tr
    /\ (In (Run ValueMapper) tr \/ In (Run RemoteUpdateClient) tr ->
        exists before after,
          tr = before
               ++ Respond 200 (json_message "Webhook received") :: after)
    /\ (In (Run EventFilter) tr ->
        exists before status body after,
          tr = before ++ Respond status body :: after
          /\ In (Run EventFilter) before)
    /\ (forall eventData,
           verifyWebhookSignature env JSON_stringify req = true ->
           validateWebhookPayload (body req) = Ok true ->
           extractEventData (body req) = Some eventData ->
           shouldProcessEvent cfg eventData = true ->
           exists task,
             tr = [Run SignatureVerifier; Run PayloadNormalizer;
                   Run EventFilter;
                   Respond 200 (json_message "Webhook received");
                   SetImmediate; Run ValueMapper] ++ task
             /\ forall x status,
                  parseFormulaValue (value_ eventData) = Some x ->
                  mapValueToStatus cfg (Num x) = Some status ->
                  exists update,
                    task = Run RemoteUpdateClient :: update
                    /\ (no_toString (boardId eventData) = false ->
                        no_toString (itemId eventData) = false ->
                        exists rest,
                          update
                          = Fetch change_column_value
                              (status_variables JSON_stringify toString
                                 eventData (status_column env)
                                 (status_index status)) :: rest)).
Proof.
  intros cfg env js ts server req tr.
  assert (D : forall c, sync_step (Run c) = false -> deferred c tr).
  { intros c Hc before status body after E.
    apply serve_cut in E. destruct E as (Hs & _).
    rewrite forallb_forall in Hs. intros Hin.
    specialize (Hs _ Hin). congruence. }
  split; [apply D; reflexivity|]. split; [apply D; reflexivity|].
  destruct (serve_trace cfg env js ts server req)
    as (sync & async & E & Hs & Ha & Hm).
  fold tr in E. rewrite forallb_forall in Hs, Ha.
  split; [|split].
  - intros Hin. exists sync, async. rewrite E.
    assert (Hne : async <> []).
    { intros ->. rewrite E in Hin.
      destruct Hin as [Hin|Hin]; apply in_app_or in Hin;
        destruct Hin as [Hin|[Hin|[]]];
        solve [discriminate | specialize (Hs _ Hin); discriminate]. }
    rewrite (Hm Hne). reflexivity.
  - intros Hin. rewrite E in Hin.
    exists sync, (fst (expected_response cfg env js req)),
      (snd (expected_response cfg env js req)), async.
    split; [exact E|].
    apply in_app_or in Hin. destruct Hin as [Hin|[Hin|Hin]].
    + exact Hin.
    + discriminate.
    + specialize (Ha _ Hin). discriminate.
  - clear E Hs Ha Hm D. intros eventData Hv Hp He Hf. subst tr.
    rewrite (serve_received _ _ _ _ _ _ _ Hv Hp He Hf).
    unfold processWebhookEvent. fold (status_column env).
    destruct (parseFormulaValue (value_ eventData)) as [x|].
    2:{ exists []. split; [reflexivity|]. intros x0 status0 H.
        discriminate H. }
    destruct (mapValueToStatus cfg (Num x)) as [status|] eqn:Hm.
    2:{ exists []. split; [reflexivity|]. intros x0 status0 Hx H.
        injection Hx as <-. rewrite Hm in H. discriminate H. }
    unfold updateStatusColumn.
    destruct (no_toString (boardId eventData)) eqn:Hb.
    { rewrite (to_string_throws ts _ Hb). exists [Run RemoteUpdateClient].
      split; [reflexivity|]. intros x0 status0 _ _.
      exists []. split; [reflexivity|]. intros H. discriminate H. }
    rewrite (to_string_defined ts _ Hb).
    destruct (no_toString (itemId eventData)) eqn:Hi.
    { rewrite (to_string_throws ts _ Hi). exists [Run RemoteUpdateClient].
      split; [reflexivity|]. intros x0 status0 _ _.
      exists []. split; [reflexivity|]. intros _ H. discriminate H. }
    rewrite (to_string_defined ts _ Hi).
    fold (status_variables js ts eventData (status_column env)
            (status_index status)).
    match goal with
    | |- context [executeQuery ?c ?j ?s ?q ?v ?r ?w0] =>
        destruct (executeQuery_trace c j s q v r w0) as (evs & Ht & _)
    end.
    rewrite Ht. cbn [trace emit app].
    exists (Run RemoteUpdateClient
            :: Fetch change_column_value
                 (status_variables js ts eventData (status_column env)
                    (status_index status)) :: evs).
    split; [reflexivity|].
    intros x0 status0 Hx Hs. injection Hx as <-. rewrite Hm in Hs.
    injection Hs as <-.
    eexists. split; [reflexivity|]. intros _ _. eexists. reflexivity.
Qed.

Lemma mapper_and_client_deferred_witness :
  let stringify := fun _ : value => EmptyString in
  let unreachable := fun _ : nat => Rejected in
  let eventData :=
    {| boardId := VString "456"; itemId := VString "123";
       columnId := VUndefined; columnType := VString "formula";
       value_ := VString "85%"; previousValue := VUndefined;
       userId := VUndefined |} in
  let status :=
    {| status_label := "Working on it"; status_index := 2;
       status_color := "yellow" |} in
  verifyWebhookSignature no_secret stringify formula_changed = true
  /\ validateWebhookPayload (body formula_changed) = Ok true
  /\ extractEventData (body formula_changed) = Some eventData
  /\ shouldProcessEvent config eventData = true
  /\ parseFormulaValue (value_ eventData) = Some (of_Z 85)
  /\ mapValueToStatus config (Num (of_Z 85)) = Some status
  /\ no_toString (boardId eventData) = false
  /\ no_toString (itemId eventData) = false
  /\ exists rest,
       trace (serve config no_secret stringify stringify unreachable
                formula_changed)
       = [Run SignatureVerifier; Run PayloadNormalizer; Run EventFilter;
          Respond 200 (json_message "Webhook received");
          SetImmediate; Run ValueMapper; Run RemoteUpdateClient;
          Fetch change_column_value
            (status_variables stringify stringify eventData
               (status_column no_secret) (status_index status))] ++ rest.
Proof.
  intros stringify unreachable eventData status.
  assert (H1 : verifyWebhookSignature no_secret stringify formula_changed
               = true) by reflexivity.
  assert (H2 : validateWebhookPayload (body formula_changed) = Ok true)
    by reflexivity.
  assert (H3 : extractEventData (body formula_changed) = Some eventData)
    by reflexivity.
  assert (H4 : shouldProcessEvent config eventData = true) by reflexivity.
  assert (H5 : parseFormulaValue (value_ eventData) = Some (of_Z 85))
    by (vm_compute; reflexivity).
  assert (H6 : mapValueToStatus config (Num (of_Z 85)) = Some status)
    by (vm_compute; reflexivity).
  assert (H7 : no_toString (boardId eventData) = false) by reflexivity.
  assert (H8 : no_toString (itemId eventData) = false) by reflexivity.
  repeat (split; [assumption|]).
  destruct (proj2 (proj2 (proj2 (proj2
              (mapper_and_client_deferred config no_secret stringify
                 stringify unreachable formula_changed))))
              eventData H1 H2 H3 H4) as (task & Et & Hu).
  destruct (Hu (of_Z 85) status H5 H6) as (update & Eu & Hr).
  destruct (Hr H7 H8) as (rest & Er).
  exists rest. rewrite Et, Eu, Er. reflexivity.
Defined.

(** C8, as stated, fails: on the request [formula_changed] the event
    filter is entered before the response is sent, so that the three
    components are not all deferred. *)
Lemma event_filter_not_deferred :
  let tr := trace (serve config no_secret (fun _ => EmptyString)
                     (fun _ => EmptyString) (fun _ => Rejected)
                     formula_changed) in
  ~ (deferred EventFilter tr
     /\ deferred ValueMapper tr
     /\ deferred RemoteUpdateClient tr).
Proof.
  intros tr [H _].
  apply (H [Run SignatureVerifier; Run PayloadNormalizer; Run EventFilter]
           200%Z (json_message "Webhook received")
           (skipn 4 tr)).
  - reflexivity.
  - right; right; left; reflexivity.
Qed.

Lemma expected_response_extracted cfg env JSON_stringify req :
  expected_response cfg env JSON_stringify req
  <> (400%Z, json_error "Invalid event data").
Proof.
  unfold expected_response.
  destruct (verifyWebhookSignature env JSON_stringify req); simpl;
    [|discriminate].
  destruct (validateWebhookPayload (body req)) as [[|]|e] eqn:Hv;
    try discriminate.
  destruct (extractEventData_valid _ Hv) as [data ->].
  destruct (shouldProcessEvent cfg data); discriminate.
Qed.

(** C10.  For every payload that [validateWebhookPayload] accepts (an
    object with a truthy [event] field), [extractEventData] returns a
    record, not [null]; its fields may be [undefined].  It throws nothing,
    being a total function.  So the handler never answers 400 with
    "Invalid event data". *)
Theorem extractEventData_total_on_valid :
  (forall payload,
      validateWebhookPayload payload = Ok true ->
      (exists fields,
          payload = VObject fields /\ truthy (lookup "event" fields) = true)
      /\ exists data, extractEventData payload = Some data)
  /\ (forall cfg env JSON_stringify toString server req,
         ~ In (Respond 400 (json_error "Invalid event data"))
             (trace (serve cfg env JSON_stringify toString server req))).
Proof.
  split.
  - intros payload H. split.
    + apply validateWebhookPayload_true. exact H.
    + apply extractEventData_valid. exact H.
  - intros cfg env js ts server req Hin.
    apply in_split in Hin. destruct Hin as (before & after & E).
    apply serve_cut in E. destruct E as (_ & _ & E).
    symmetry in E. revert E. apply expected_response_extracted.
Qed.

Lemma extractEventData_total_on_valid_witness :
  validateWebhookPayload (body formula_changed) = Ok true
  /\ exists data, extractEventData (body formula_changed) = Some data.
Proof.
  assert (H : validateWebhookPayload (body formula_changed) = Ok true)
    by reflexivity.
  split; [exact H|].
  exact (proj2 (proj1 extractEventData_total_on_valid
                  (body formula_changed) H)).
Defined.

(* ===================================================================== *)
(** ** Further properties of src/config.js and src/utils.js *)
(* ===================================================================== *)

Lemma default_rules_cover (x : number) :
  isNaN x = false ->
  map (fun r => condition r x) (statusMapping config) = [true; false; false]
  \/ map (fun r => condition r x) (statusMapping config)
     = [false; true; false]
  \/ map (fun r => condition r x) (statusMapping config)
     = [false; false; true].
Proof.
  intros Hx. cbn [map statusMapping config condition].
  replace (of_Z 100) with (S754_finite false 7036874417766400 (-46))
    by (vm_compute; reflexivity).
  replace (of_Z 50) with (S754_finite false 7036874417766400 (-47))
    by (vm_compute; reflexivity).
  unfold num_gt, num_ge, num_le, num_lt, SFltb, SFleb.
  destruct x as [s|s| |s m e]; try discriminate.
  - simpl. auto.
  - destruct s; simpl; auto.
  - destruct s; [simpl; auto|].
    cbn [SFcompare].
    rewrite (Z.compare_antisym e (-46)), (Z.compare_antisym e (-47)).
    replace (Pos.compare_cont Eq 7036874417766400 m)
      with (CompOpp (Pos.compare_cont Eq m 7036874417766400))
      by apply (Pos.compare_cont_antisym m 7036874417766400%positive Eq).
    destruct (Z.compare_spec e (-46)) as [H1|H1|H1];
      destruct (Z.compare_spec e (-47)) as [H2|H2|H2];
      try lia; cbn [CompOpp];
      try (destruct (Pos.compare_cont Eq m 7036874417766400%positive);
           cbn [CompOpp]);
      auto.
Qed.

Lemma first_status_covered (rules : list StatusRule) (x : number) :
  In true (map (fun r => condition r x) rules) ->
  exists s, first_status rules x = Some s.
Proof.
  intros H. destruct (first_status rules x) as [s|] eqn:E; [eauto|].
  exfalso. apply first_status_none in E.
  apply in_map_iff in H. destruct H as (r & Hr & Hin).
  rewrite Forall_forall in E. specialize (E r Hin). congruence.
Qed.

(** X1.  The three rules of src/config.js part the Numbers: for every
    Number that is not NaN, the infinities included, exactly one of the
    three conditions holds, so that [mapValueToStatus] finds a status for
    it. *)
Theorem default_rules_partition (x : number) :
  isNaN x = false ->
  (map (fun r => condition r x) (statusMapping config) = [true; false; false]
   \/ map (fun r => condition r x) (statusMapping config)
      = [false; true; false]
   \/ map (fun r => condition r x) (statusMapping config)
      = [false; false; true])
  /\ exists s, mapValueToStatus config (Num x) = Some s.
Proof.
  intros Hx. pose proof (default_rules_cover x Hx) as P.
  split; [exact P|].
  unfold mapValueToStatus. rewrite Hx. apply first_status_covered.
  destruct P as [P|[P|P]]; rewrite P; simpl; auto.
Qed.

Lemma default_rules_partition_witness :
  isNaN (of_Z 75) = false
  /\ exists s, mapValueToStatus config (Num (of_Z 75)) = Some s.
Proof.
  assert (H : isNaN (of_Z 75) = false) by reflexivity.
  split; [exact H|].
  exact (proj2 (default_rules_partition (of_Z 75) H)).
Defined.

(** X2.  What [parseFormulaValue] returns is never NaN, and with the rules
    of src/config.js every value it accepts is mapped to a status: the
    task never stops at "No status mapping found". *)
Theorem parsed_value_has_status (v : value) (x : number) :
  parseFormulaValue v = Some x ->
  isNaN x = false /\ exists s, mapValueToStatus config (Num x) = Some s.
Proof.
  intros H.
  assert (Hx : isNaN x = false).
  { destruct v as [| |b|y|s|items|fields]; simpl in H; try discriminate.
    - destruct (isNaN y) eqn:E; [discriminate|]. congruence.
    - destruct (isNaN (parseFloat (trim (remove_chars formatting s))))
        eqn:E; [discriminate|]. congruence. }
  split; [exact Hx|].
  unfold mapValueToStatus. rewrite Hx. apply first_status_covered.
  destruct (default_rules_cover x Hx) as [P|[P|P]]; rewrite P; simpl; auto.
Qed.

Lemma parsed_value_has_status_witness :
  parseFormulaValue (VString "85%") = Some (of_Z 85)
  /\ isNaN (of_Z 85) = false
  /\ exists s, mapValueToStatus config (Num (of_Z 85)) = Some s.
Proof.
  assert (H : parseFormulaValue (VString "85%") = Some (of_Z 85))
    by (vm_compute; reflexivity).
  split; [exact H|].
  exact (parsed_value_has_status (VString "85%") (of_Z 85) H).
Defined.

(** X3.  Rules are shadowed by the rules before them: on a list of rules
    followed by more rules, the loop of [mapValueToStatus] gives what the
    first list gives, and looks at the added rules only for a number that
    no rule of the first list takes. *)
Theorem first_status_app (rules extra : list StatusRule) (x : number) :
  first_status (rules ++ extra) x
  = match first_status rules x with
    | Some s => Some s
    | None => first_status extra x
    end.
Proof.
  induction rules as [|r rules IH]; simpl; [reflexivity|].
  destruct (condition r x); [reflexivity|exact IH].
Qed.

(** X4.  [extractEventData] returns [null] exactly for a payload that is
    [null] or [undefined] and for a payload whose [event] is: these are
    the reads that throw.  Every other payload, validated or not, gives a
    record. *)
Theorem extractEventData_null (payload : value) :
  extractEventData payload = None <->
  nullish payload = true
  \/ exists event, get payload "event" = Ok event /\ nullish event = true.
Proof.
  unfold extractEventData, extractEventData_try.
  destruct (get payload "event") as [event|e] eqn:Hp.
  - cbn [bind].
    assert (Hn : nullish payload = false) by (destruct payload; simpl in *;
                                               congruence).
    destruct (nullish event) eqn:He.
    + split; [eauto|]. intros _. destruct event; try discriminate;
        reflexivity.
    + split.
      * assert (G : forall k, exists x, get event k = Ok x)
          by (intros k; destruct event; simpl in *; try discriminate; eauto).
        destruct (G "boardId") as [x1 ->], (G "pulseId") as [x2 ->],
          (G "itemId") as [x3 ->], (G "columnId") as [x4 ->],
          (G "columnType") as [x5 ->], (G "value") as [x6 ->],
          (G "previousValue") as [x7 ->], (G "userId") as [x8 ->].
        assert (G' : exists y, get payload "boardId" = Ok y)
          by (destruct payload; simpl in *; try discriminate; eauto).
        destruct G' as [y ->]. cbn [bind].
        destruct (truthy x1), (truthy x2); cbn [bind]; discriminate.
      * intros [H|(ev & [= <-] & H)]; congruence.
  - cbn [bind]. split; [|reflexivity]. intros _. left.
    destruct payload; simpl in *; congruence.
Qed.

(** X5.  With the lists of src/config.js, [shouldProcessEvent] accepts
    exactly the events whose [columnType] is the string "formula" and the
    events whose [columnType] is falsy; a [columnType] of any other type
    or text is refused. *)
Theorem shouldProcessEvent_default (event : EventData) :
  shouldProcessEvent config event = true <->
  truthy (columnType event) = false
  \/ columnType event = VString "formula".
Proof.
  unfold shouldProcessEvent.
  destruct (columnType event) as [| |b|x|s|items|fields]; simpl.
  - split; auto.
  - split; auto.
  - destruct b; simpl; split; auto. intros [H|H]; discriminate.
  - destruct x; simpl; split; auto; intros [H|H]; discriminate.
  - destruct s as [|c s]; [simpl; split; auto|].
    cbn [truthy andb].
    destruct (String.eqb_spec (String c s) "status") as [E|E].
    + rewrite E. simpl. split; [discriminate|]. intros [H|H]; discriminate.
    + cbn [orb]. cbn [negb].
      destruct (String.eqb_spec (String c s) "formula") as [F|F].
      * rewrite F. simpl. split; auto.
      * simpl. split; [discriminate|]. intros [H|H]; [discriminate|].
        congruence.
  - split; [discriminate|]. intros [H|H]; discriminate.
  - split; [discriminate|]. intros [H|H]; discriminate.
Qed.

(** X6.  Under a policy of whole numbers up to [Number.MAX_SAFE_INTEGER],
    with an initial delay of at least 1, a multiplier of at least 1 and a
    largest delay that is not negative, the delay of
    [calculateBackoffDelay] never shrinks from an attempt to a later one;
    it is never above [maxDelayMs] and never below the smaller of
    [initialDelayMs] and [maxDelayMs]. *)
Theorem calculateBackoffDelay_monotone (cfg : Config.t) (a b : nat) :
  (1 <= initialDelayMs (rateLimit cfg) <= MAX_SAFE_INTEGER)%Z ->
  (1 <= backoffMultiplier (rateLimit cfg) <= MAX_SAFE_INTEGER)%Z ->
  (0 <= maxDelayMs (rateLimit cfg) <= MAX_SAFE_INTEGER)%Z ->
  (a <= b)%nat ->
  (calculateBackoffDelay cfg a <= calculateBackoffDelay cfg b)%Z
  /\ (calculateBackoffDelay cfg a <= maxDelayMs (rateLimit cfg))%Z
  /\ (Z.min (initialDelayMs (rateLimit cfg)) (maxDelayMs (rateLimit cfg))
      <= calculateBackoffDelay cfg a)%Z.
Proof.
  intros [Hi _] [Hm _] _ Hab. unfold calculateBackoffDelay.
  set (i := initialDelayMs (rateLimit cfg)) in *.
  set (m := backoffMultiplier (rateLimit cfg)) in *.
  set (c := maxDelayMs (rateLimit cfg)).
  assert (Hp : forall n : nat, (1 <= m ^ Z.of_nat n)%Z).
  { intros n.
    assert (0 < m ^ Z.of_nat n)%Z by (apply Z.pow_pos_nonneg; lia). lia. }
  assert (Hle : (m ^ Z.of_nat a <= m ^ Z.of_nat b)%Z)
    by (apply Z.pow_le_mono_r; lia).
  pose proof (Hp a) as Ha.
  repeat split.
  - apply Z.min_le_compat_r. nia.
  - apply Z.le_min_r.
  - apply Z.min_le_compat_r. nia.
Qed.

Lemma calculateBackoffDelay_monotone_witness :
  (1 <= initialDelayMs (rateLimit config) <= MAX_SAFE_INTEGER)%Z
  /\ (1 <= backoffMultiplier (rateLimit config) <= MAX_SAFE_INTEGER)%Z
  /\ (0 <= maxDelayMs (rateLimit config) <= MAX_SAFE_INTEGER)%Z
  /\ (1 <= 2)%nat
  /\ (calculateBackoffDelay config 1 <= calculateBackoffDelay config 2)%Z.
Proof.
  assert (H1 : (1 <= initialDelayMs (rateLimit config)
                <= MAX_SAFE_INTEGER)%Z)
    by (unfold MAX_SAFE_INTEGER; simpl; lia).
  assert (H2 : (1 <= backoffMultiplier (rateLimit config)
                <= MAX_SAFE_INTEGER)%Z)
    by (unfold MAX_SAFE_INTEGER; simpl; lia).
  assert (H3 : (0 <= maxDelayMs (rateLimit config) <= MAX_SAFE_INTEGER)%Z)
    by (unfold MAX_SAFE_INTEGER; simpl; lia).
  assert (H4 : (1 <= 2)%nat) by lia.
  split; [exact H1|]. split; [exact H2|]. split; [exact H3|].
  split; [exact H4|].
  exact (proj1 (calculateBackoffDelay_monotone config 1 2 H1 H2 H3 H4)).
Defined.

(* ===================================================================== *)
(** ** Further properties of src/mondayClient.js *)
(* ===================================================================== *)

Lemma slept_app (tr1 tr2 : list event) :
  slept (tr1 ++ tr2) = (slept tr1 + slept tr2)%Z.
Proof.
  induction tr1 as [|e tr1 IH]; simpl; [reflexivity|].
  destruct e; rewrite ?IH; lia.
Qed.

Lemma attempts_fetch cfg query variables retryCount n q v :
  In (Fetch q v) (attempts cfg query variables retryCount n) ->
  q = query /\ v = variables.
Proof.
  revert retryCount. induction n as [|n IH]; intros rc; simpl.
  - intros [[= <- <-]|[]]. auto.
  - intros [[= <- <-]|[H|H]]; [auto|discriminate|eauto].
Qed.

Lemma attempts_slept cfg query variables retryCount n :
  (slept (attempts cfg query variables retryCount n)
   <= Z.of_nat n * maxDelayMs (rateLimit cfg))%Z.
Proof.
  revert retryCount. induction n as [|n IH]; intros rc.
  - simpl. lia.
  - cbn [attempts slept]. specialize (IH (S rc)).
    assert (calculateBackoffDelay cfg rc <= maxDelayMs (rateLimit cfg))%Z
      by (unfold calculateBackoffDelay; apply Z.le_min_r).
    lia.
Qed.

Lemma executeQuery_attempts cfg JSON_stringify server query variables
    retryCount w :
  exists n,
    n <= maxRetries (rateLimit cfg) - retryCount
    /\ trace (snd (executeQuery cfg JSON_stringify server query variables
                     retryCount w))
       = trace w ++ attempts cfg query variables retryCount n
    /\ sent (snd (executeQuery cfg JSON_stringify server query variables
                    retryCount w))
       = sent w + S n
    /\ immediates (snd (executeQuery cfg JSON_stringify server query
                          variables retryCount w))
       = immediates w.
Proof.
  apply (executeQuery_elim cfg JSON_stringify server
           (fun query variables retryCount w res =>
              exists n,
                n <= maxRetries (rateLimit cfg) - retryCount
                /\ trace (snd res)
                   = trace w ++ attempts cfg query variables retryCount n
                /\ sent (snd res) = sent w + S n
                /\ immediates (snd res) = immediates w)).
  - intros q v r w0 _. exists 0. simpl. repeat split; lia.
  - intros q v r w0 status _. exists 0. simpl. repeat split; lia.
  - intros q v r w0 status data _ _. exists 0. simpl. repeat split; lia.
  - intros q v r Hlt w0 status data IH _ _ _. cbv zeta in *.
    destruct IH as (n & Hn & Ht & Hsent & Hi).
    exists (S n). rewrite Ht, Hsent, Hi. simpl.
    rewrite <- !app_assoc, Nat.add_1_r. simpl. repeat split; lia.
  - intros q v r Hge w0 status data _ _ _. exists 0. simpl.
    repeat split; lia.
Qed.

(** X7.  What one call of [executeQuery] does, whatever the API answers:
    it sends the same query between 1 and [maxRetries - retryCount + 1]
    times, sleeps between two requests for the delay of the attempt, and
    does nothing else.  Every answer but the last was a 429 with a JSON
    body: a rejected request, a body that is not JSON and an answer of
    another status are never followed by a retry. *)
Theorem executeQuery_effects cfg JSON_stringify server query variables
    retryCount w :
  exists n,
    n <= maxRetries (rateLimit cfg) - retryCount
    /\ trace (snd (executeQuery cfg JSON_stringify server query variables
                     retryCount w))
       = trace w ++ attempts cfg query variables retryCount n
    /\ sent (snd (executeQuery cfg JSON_stringify server query variables
                    retryCount w))
       = sent w + S n
    /\ immediates (snd (executeQuery cfg JSON_stringify server query
                          variables retryCount w))
       = immediates w
    /\ forall i, i < n ->
         exists data, server (sent w + i) = Response 429 (Some data).
Proof.
  apply (executeQuery_elim cfg JSON_stringify server
           (fun query variables retryCount w res =>
              exists n,
                n <= maxRetries (rateLimit cfg) - retryCount
                /\ trace (snd res)
                   = trace w ++ attempts cfg query variables retryCount n
                /\ sent (snd res) = sent w + S n
                /\ immediates (snd res) = immediates w
                /\ forall i, i < n ->
                     exists data,
                       server (sent w + i) = Response 429 (Some data))).
  - intros q v r w0 _. exists 0. simpl. repeat split; try lia.
  - intros q v r w0 status _. exists 0. simpl. repeat split; try lia.
  - intros q v r w0 status data _ _. exists 0. simpl.
    repeat split; try lia.
  - intros q v r Hlt w0 status data IH _ Hs Hserver. cbv zeta in *.
    destruct IH as (n & Hn & Ht & Hsent & Hi & Hans).
    exists (S n). rewrite Ht, Hsent, Hi. simpl.
    rewrite <- !app_assoc, Nat.add_1_r. simpl.
    repeat split; try lia.
    intros i Hlti. destruct i as [|i].
    + apply Z.eqb_eq in Hs. subst status. rewrite Nat.add_0_r. eauto.
    + destruct (Hans i) as [d Hd]; [lia|]. exists d.
      rewrite <- Hd. f_equal. simpl. lia.
  - intros q v r Hge w0 status data _ _ _. exists 0. simpl.
    repeat split; try lia.
Qed.

(** X8.  [executeQuery] gives a value only from a good answer: when it
    returns, the last answer it received had a success status other than
    429 and a JSON body without truthy [errors], and the value returned
    is the [data] of that body. *)
Theorem executeQuery_returns cfg JSON_stringify server query variables
    retryCount w result :
  fst (executeQuery cfg JSON_stringify server query variables retryCount w)
  = Ok result ->
  exists status data errors,
    server (sent (snd (executeQuery cfg JSON_stringify server query
                         variables retryCount w)) - 1)
    = Response status (Some data)
    /\ ok status = true
    /\ get data "errors" = Ok errors
    /\ truthy errors = false
    /\ get data "data" = Ok result.
Proof.
  revert result.
  apply (executeQuery_elim cfg JSON_stringify server
           (fun query variables retryCount w res =>
              forall result,
                fst res = Ok result ->
                exists status data errors,
                  server (sent (snd res) - 1) = Response status (Some data)
                  /\ ok status = true
                  /\ get data "errors" = Ok errors
                  /\ truthy errors = false
                  /\ get data "data" = Ok result)).
  - intros q v r w0 _ result H. discriminate.
  - intros q v r w0 status _ result H. discriminate.
  - intros q v r w0 status data _ Hserver result H.
    exists status, data. simpl in *. rewrite Nat.sub_0_r, Hserver.
    destruct (get data "errors") as [errors|e]; [|discriminate].
    exists errors. destruct (truthy errors); [discriminate|].
    destruct (ok status); simpl in H; [|discriminate]. auto.
  - intros q v r Hlt w0 status data IH _ _ _ result H. cbv zeta in *.
    exact (IH result H).
  - intros q v r Hge w0 status data _ _ _ result H. discriminate.
Qed.

Lemma executeQuery_returns_witness :
  let server := fun _ : nat => answer_data (VString "x") in
  let run := executeQuery config (fun _ => EmptyString) server "q" VNull 0
               start in
  fst run = Ok (VString "x")
  /\ exists status data errors,
       server (sent (snd run) - 1) = Response status (Some data)
       /\ ok status = true
       /\ get data "errors" = Ok errors
       /\ truthy errors = false
       /\ get data "data" = Ok (VString "x").
Proof.
  intros server run.
  assert (H : fst run = Ok (VString "x")) by reflexivity.
  split; [exact H|].
  exact (executeQuery_returns config (fun _ => EmptyString) server "q" VNull
           0 start (VString "x") H).
Defined.

(** X9.  "Rate limit exceeded" is the error of a call that has used up
    its retries, and of no other: a call that starts with a retry count
    of at most [maxRetries] and fails with it has sent
    [maxRetries - retryCount + 1] requests and has slept between them. *)
Theorem executeQuery_rate_limit_exhausted cfg JSON_stringify server query
    variables retryCount w :
  retryCount <= maxRetries (rateLimit cfg) ->
  fst (executeQuery cfg JSON_stringify server query variables retryCount w)
  = Throw (Error "Rate limit exceeded. Max retries reached.") ->
  trace (snd (executeQuery cfg JSON_stringify server query variables
                retryCount w))
  = trace w ++ attempts cfg query variables retryCount
                 (maxRetries (rateLimit cfg) - retryCount)
  /\ sent (snd (executeQuery cfg JSON_stringify server query variables
                  retryCount w))
     = sent w + (maxRetries (rateLimit cfg) - retryCount) + 1.
Proof.
  apply (executeQuery_elim cfg JSON_stringify server
           (fun query variables retryCount w res =>
              retryCount <= maxRetries (rateLimit cfg) ->
              fst res = Throw (Error "Rate limit exceeded. Max retries reached.") ->
              trace (snd res)
              = trace w ++ attempts cfg query variables retryCount
                             (maxRetries (rateLimit cfg) - retryCount)
              /\ sent (snd res)
                 = sent w + (maxRetries (rateLimit cfg) - retryCount) + 1)).
  - intros q v r w0 _ _ H. discriminate.
  - intros q v r w0 status _ _ H. discriminate.
  - intros q v r w0 status data _ _ _ H. exfalso. simpl in H.
    destruct (get data "errors") as [errors|e] eqn:He.
    + destruct (truthy errors); simpl in H; [discriminate|].
      destruct (ok status); simpl in H; [|discriminate].
      destruct data; simpl in H; discriminate.
    + destruct data; simpl in He; try discriminate;
        injection He as <-; discriminate.
  - intros q v r Hlt w0 status data IH _ _ _ Hle H. cbv zeta in *.
    destruct IH as [Ht Hs]; [lia|exact H|].
    rewrite Ht, Hs. simpl. rewrite <- !app_assoc, Nat.add_1_r. simpl.
    replace (maxRetries (rateLimit cfg) - r)
      with (S (maxRetries (rateLimit cfg) - S r)) by lia.
    simpl. split; [reflexivity|lia].
  - intros q v r Hge w0 status data _ _ _ Hle _.
    replace (maxRetries (rateLimit cfg) - r) with 0 by lia.
    simpl. split; [reflexivity|lia].
Qed.

Lemma executeQuery_rate_limit_exhausted_witness :
  let server := fun _ : nat => Response 429 (Some (VObject [])) in
  let run := executeQuery config (fun _ => EmptyString) server "q" VNull 0
               start in
  0 <= maxRetries (rateLimit config)
  /\ fst run = Throw (Error "Rate limit exceeded. Max retries reached.")
  /\ sent (snd run) = sent start + (maxRetries (rateLimit config) - 0) + 1.
Proof.
  intros server run.
  assert (H1 : 0 <= maxRetries (rateLimit config)) by (simpl; lia).
  assert (H2 : fst run
               = Throw (Error "Rate limit exceeded. Max retries reached."))
    by reflexivity.
  split; [exact H1|]. split; [exact H2|].
  exact (proj2 (executeQuery_rate_limit_exhausted config
                  (fun _ => EmptyString) server "q" VNull 0 start H1 H2)).
Defined.

(** X10.  The time one call of [executeQuery] can sleep is bounded: under
    a policy whose [maxDelayMs] is not negative, by [maxDelayMs] for each
    retry that is left.  With the policy of src/config.js a first call
    sends at most 4 requests and sleeps at most 7000 milliseconds in all,
    whatever the API answers. *)
Theorem executeQuery_sleep_bound :
  (forall cfg JSON_stringify server query variables retryCount w,
      (0 <= maxDelayMs (rateLimit cfg))%Z ->
      (slept (trace (snd (executeQuery cfg JSON_stringify server query
                            variables retryCount w)))
       <= slept (trace w)
          + Z.of_nat (maxRetries (rateLimit cfg) - retryCount)
            * maxDelayMs (rateLimit cfg))%Z)
  /\ (forall JSON_stringify server query variables,
         sent (snd (executeQuery config JSON_stringify server query
                      variables 0 start)) <= 4
         /\ (slept (trace (snd (executeQuery config JSON_stringify server
                                  query variables 0 start)))
             <= 7000)%Z).
Proof.
  split.
  - intros cfg js server q v rc w Hmax.
    destruct (executeQuery_attempts cfg js server q v rc w)
      as (n & Hn & Ht & _).
    rewrite Ht, slept_app.
    pose proof (attempts_slept cfg q v rc n) as Hs.
    assert (Z.of_nat n * maxDelayMs (rateLimit cfg)
            <= Z.of_nat (maxRetries (rateLimit cfg) - rc)
               * maxDelayMs (rateLimit cfg))%Z
      by (apply Z.mul_le_mono_nonneg_r; lia).
    lia.
  - intros js server q v.
    destruct (executeQuery_attempts config js server q v 0 start)
      as (n & Hn & Ht & Hs & _).
    rewrite Ht, Hs. simpl in Hn.
    destruct n as [|[|[|[|n]]]]; try lia;
      cbn [trace start app attempts slept sent];
      repeat match goal with
             | |- context [calculateBackoffDelay config ?k] =>
                 let d := eval vm_compute in (calculateBackoffDelay config k) in
                 change (calculateBackoffDelay config k) with d
             end;
      split; lia.
Qed.

Lemma executeQuery_sleep_bound_witness :
  (0 <= maxDelayMs (rateLimit config))%Z
  /\ (slept (trace (snd (executeQuery config (fun _ => EmptyString)
                           (fun _ => Rejected) "q" VNull 0 start)))
      <= slept (trace start)
         + Z.of_nat (maxRetries (rateLimit config) - 0)
           * maxDelayMs (rateLimit config))%Z.
Proof.
  assert (H : (0 <= maxDelayMs (rateLimit config))%Z) by (simpl; lia).
  split; [exact H|].
  exact (proj1 executeQuery_sleep_bound config (fun _ => EmptyString)
           (fun _ => Rejected) "q" VNull 0 start H).
Defined.

Lemma executeQuery_answer_data cfg JSON_stringify server query variables
    retryCount w data :
  server (sent w) = answer_data data ->
  executeQuery cfg JSON_stringify server query variables retryCount w
  = (Ok data, after_fetch query variables w).
Proof.
  intros H.
  rewrite (executeQuery_answered cfg JSON_stringify server query variables
             retryCount w 200%Z (VObject [("data", data)]) H)
    by discriminate.
  reflexivity.
Qed.

(** X11.  [getItem] on an item id whose [toString()] throws ([null],
    [undefined], an object with a property named [toString], an array
    that holds such an object) throws a TypeError before any request is
    sent.  On any other id, when the API answers 200 with a body whose
    one field is [data], it has sent one request with the id as a string,
    and: it throws a TypeError when [data] is [null] or [undefined]; it
    returns the first element of [data.items] when that is an array that
    is not empty; it returns [null] when [data.items] is falsy or the
    empty array. *)
Theorem getItem_answered cfg JSON_stringify toString server ToNumber charAt0
    itemId w :
  (no_toString itemId = true ->
   getItem cfg JSON_stringify toString server ToNumber charAt0 itemId w
   = (Throw TypeError, w))
  /\ (forall data,
         no_toString itemId = false ->
         server (sent w) = answer_data data ->
         let r := getItem cfg JSON_stringify toString server ToNumber
                    charAt0 itemId w in
         snd r = after_fetch items_query
                   (VObject [("itemId", VString (toString itemId))]) w
         /\ (nullish data = true -> fst r = Throw TypeError)
         /\ (forall fields item rest,
                data = VObject fields ->
                lookup "items" fields = VArray (item :: rest) ->
                fst r = Ok item)
         /\ (forall fields,
                data = VObject fields ->
                truthy (lookup "items" fields) = false
                \/ lookup "items" fields = VArray [] ->
                fst r = Ok VNull)).
Proof.
  split.
  - intros H. unfold getItem. rewrite (to_string_throws toString _ H).
    reflexivity.
  - intros data Hid Hs r. subst r. unfold getItem.
    rewrite (to_string_defined toString _ Hid).
    rewrite (executeQuery_answer_data _ _ _ _ _ _ _ data Hs).
    cbn [fst snd]. split; [reflexivity|]. split; [|split].
    + intros Hn. destruct data; try discriminate; reflexivity.
    + intros fields item rest -> Hi. cbn [get bind]. rewrite Hi. reflexivity.
    + intros fields -> [Hi|Hi]; cbn [get bind]; rewrite Hi; reflexivity.
Qed.

Lemma getItem_answered_witness :
  let item := VObject [("id", VString "123")] in
  let server := fun _ : nat =>
    answer_data (VObject [("items", VArray [item])]) in
  let stringify := fun _ : value => EmptyString in
  no_toString (VString "123") = false
  /\ fst (getItem config stringify stringify server (fun _ => NaN)
            (fun s => s) (VString "123") start)
     = Ok item.
Proof.
  intros item server stringify.
  assert (H : no_toString (VString "123") = false) by reflexivity.
  split; [exact H|].
  exact (proj1 (proj2 (proj2
           (proj2 (getItem_answered config stringify stringify server
                     (fun _ => NaN) (fun s => s) (VString "123") start)
              (VObject [("items", VArray [item])]) H eq_refl)))
           [("items", VArray [item])] item [] eq_refl eq_refl).
Defined.

(** X12.  [getBoardColumns] on a board id whose [toString()] throws
    ([null], [undefined], an object with a property named [toString], an
    array that holds such an object) throws a TypeError before any
    request is sent.  On any other id, when the API answers 200 with a
    body whose one field is [data], it has sent one request with the id
    as a string, and: it throws a TypeError when [data] is [null] or
    [undefined], and when the first element of the array [data.boards]
    is; it returns the [columns] of the first board when that is an
    object; it returns the empty array when [data.boards] is falsy or the
    empty array. *)
Theorem getBoardColumns_answered cfg JSON_stringify toString server ToNumber
    charAt0 boardId w :
  (no_toString boardId = true ->
   getBoardColumns cfg JSON_stringify toString server ToNumber charAt0
     boardId w
   = (Throw TypeError, w))
  /\ (forall data,
         no_toString boardId = false ->
         server (sent w) = answer_data data ->
         let r := getBoardColumns cfg JSON_stringify toString server
                    ToNumber charAt0 boardId w in
         snd r = after_fetch columns_query
                   (VObject [("boardId", VString (toString boardId))]) w
         /\ (nullish data = true -> fst r = Throw TypeError)
         /\ (forall fields board rest,
                data = VObject fields ->
                lookup "boards" fields = VArray (board :: rest) ->
                (nullish board = true -> fst r = Throw TypeError)
                /\ (forall columns,
                       board = VObject columns ->
                       fst r = Ok (lookup "columns" columns)))
         /\ (forall fields,
                data = VObject fields ->
                truthy (lookup "boards" fields) = false
                \/ lookup "boards" fields = VArray [] ->
                fst r = Ok (VArray []))).
Proof.
  split.
  - intros H. unfold getBoardColumns.
    rewrite (to_string_throws toString _ H). reflexivity.
  - intros data Hid Hs r. subst r. unfold getBoardColumns.
    rewrite (to_string_defined toString _ Hid).
    rewrite (executeQuery_answer_data _ _ _ _ _ _ _ data Hs).
    cbn [fst snd]. split; [reflexivity|]. split; [|split].
    + intros Hn. destruct data; try discriminate; reflexivity.
    + intros fields board rest -> Hb. cbn [get bind]. rewrite Hb.
      cbn [truthy length_positive element0 bind]. split.
      * intros Hn. destruct board; try discriminate; reflexivity.
      * intros columns ->. reflexivity.
    + intros fields -> [Hb|Hb]; cbn [get bind]; rewrite Hb; reflexivity.
Qed.

Lemma getBoardColumns_answered_witness :
  let columns := VArray [VObject [("id", VString "status")]] in
  let board := VObject [("columns", columns)] in
  let server := fun _ : nat =>
    answer_data (VObject [("boards", VArray [board])]) in
  let stringify := fun _ : value => EmptyString in
  no_toString (VString "456") = false
  /\ fst (getBoardColumns config stringify stringify server (fun _ => NaN)
            (fun s => s) (VString "456") start)
     = Ok columns.
Proof.
  intros columns board server stringify.
  assert (H : no_toString (VString "456") = false) by reflexivity.
  split; [exact H|].
  exact (proj2 (proj1 (proj2 (proj2
           (proj2 (getBoardColumns_answered config stringify stringify
                     server (fun _ => NaN) (fun s => s) (VString "456")
                     start)
              (VObject [("boards", VArray [board])]) H eq_refl)))
           [("boards", VArray [board])] board [] eq_refl eq_refl)
           [("columns", columns)] eq_refl).
Defined.

(* ===================================================================== *)
(** ** Further properties of the Express application *)
(* ===================================================================== *)

Lemma processWebhookEvent_outcomes cfg env JSON_stringify toString server
    eventData w :
  let w' := processWebhookEvent cfg env JSON_stringify toString server
              eventData w in
  (trace w' = trace w ++ [Run ValueMapper]
   /\ sent w' = sent w
   /\ (parseFormulaValue (value_ eventData) = None
       \/ exists x,
            parseFormulaValue (value_ eventData) = Some x
            /\ mapValueToStatus cfg (Num x) = None))
  \/ (trace w' = trace w ++ [Run ValueMapper; Run RemoteUpdateClient]
      /\ sent w' = sent w
      /\ no_toString (boardId eventData) || no_toString (itemId eventData)
         = true)
  \/ (exists x status n,
         parseFormulaValue (value_ eventData) = Some x
         /\ mapValueToStatus cfg (Num x) = Some status
         /\ no_toString (boardId eventData) = false
         /\ no_toString (itemId eventData) = false
         /\ n <= maxRetries (rateLimit cfg)
         /\ trace w'
            = trace w
              ++ Run ValueMapper :: Run RemoteUpdateClient
                 :: attempts cfg change_column_value
                      (status_variables JSON_stringify toString eventData
                         (status_column env) (status_index status)) 0 n
         /\ sent w' = sent w + S n).
Proof.
  intros w'. subst w'. unfold processWebhookEvent.
  destruct (parseFormulaValue (value_ eventData)) as [x|];
    [|left; repeat split; auto].
  destruct (mapValueToStatus cfg (Num x)) as [status|] eqn:Hm;
    [|left; repeat split; eauto].
  right. unfold updateStatusColumn. fold (status_column env).
  destruct (no_toString (boardId eventData)) eqn:Hb.
  { left. rewrite (to_string_throws toString _ Hb). simpl.
    rewrite <- app_assoc. repeat split. }
  rewrite (to_string_defined toString _ Hb).
  destruct (no_toString (itemId eventData)) eqn:Hi.
  { left. rewrite (to_string_throws toString _ Hi). simpl.
    rewrite <- app_assoc. repeat split. }
  rewrite (to_string_defined toString _ Hi).
  right. fold (status_variables JSON_stringify toString eventData
                 (status_column env) (status_index status)).
  match goal with
  | |- context [executeQuery ?c ?j ?s ?q ?v ?r ?w0] =>
      destruct (executeQuery_attempts c j s q v r w0)
        as (n & Hn & Ht & Hs & _)
  end.
  exists x, status, n.
  split; [reflexivity|]. split; [exact Hm|].
  split; [reflexivity|]. split; [reflexivity|]. split; [lia|].
  rewrite Ht, Hs. simpl. rewrite <- !app_assoc. split; [reflexivity|lia].
Qed.

(** X13.  What the task [processWebhookEvent] does is one of three
    things.  It stops in the value mapper, with nothing sent, when the
    value does not parse or no rule takes it.  It enters the client and
    stops there, with nothing sent, when the [toString()] of the board id
    or of the item id throws: the id is [null] or [undefined], an object
    with a property named [toString], or an array that holds such an
    object.  Otherwise it sends the mutation
    [change_column_value] for the board, the item, the status column of
    the environment and the index of the status found, at most
    [maxRetries + 1] times.  In no case does it send a response: the
    responses of the trace are the ones that were there before. *)
Theorem processWebhookEvent_effects cfg env JSON_stringify toString server
    eventData w :
  let w' := processWebhookEvent cfg env JSON_stringify toString server
              eventData w in
  ((trace w' = trace w ++ [Run ValueMapper]
   /\ sent w' = sent w
   /\ (parseFormulaValue (value_ eventData) = None
       \/ exists x,
            parseFormulaValue (value_ eventData) = Some x
            /\ mapValueToStatus cfg (Num x) = None))
  \/ (trace w' = trace w ++ [Run ValueMapper; Run RemoteUpdateClient]
      /\ sent w' = sent w
      /\ no_toString (boardId eventData) || no_toString (itemId eventData)
         = true)
  \/ (exists x status n,
         parseFormulaValue (value_ eventData) = Some x
         /\ mapValueToStatus cfg (Num x) = Some status
         /\ no_toString (boardId eventData) = false
         /\ no_toString (itemId eventData) = false
         /\ n <= maxRetries (rateLimit cfg)
         /\ trace w'
            = trace w
              ++ Run ValueMapper :: Run RemoteUpdateClient
                 :: attempts cfg change_column_value
                      (status_variables JSON_stringify toString eventData
                         (status_column env) (status_index status)) 0 n
         /\ sent w' = sent w + S n))
  /\ filter is_response (trace w') = filter is_response (trace w).
Proof.
  intros w'. split.
  - apply processWebhookEvent_outcomes.
  - destruct (processWebhookEvent_trace cfg env JSON_stringify toString
                server eventData w) as (evs & Ht & Ha).
    subst w'. rewrite Ht, filter_app. cbn [filter is_response].
    rewrite (filter_none is_response evs (async_no_response _ Ha)).
    apply app_nil_r.
Qed.

Lemma serve_cases cfg env JSON_stringify toString server req :
  (exists eventData,
      verifyWebhookSignature env JSON_stringify req = true
      /\ validateWebhookPayload (body req) = Ok true
      /\ extractEventData (body req) = Some eventData
      /\ shouldProcessEvent cfg eventData = true)
  \/ ((verifyWebhookSignature env JSON_stringify req = false
       \/ validateWebhookPayload (body req) <> Ok true
       \/ exists eventData,
            extractEventData (body req) = Some eventData
            /\ shouldProcessEvent cfg eventData = false)
      /\ sent (serve cfg env JSON_stringify toString server req) = 0
      /\ immediates (serve cfg env JSON_stringify toString server req) = []
      /\ forallb (fun e => negb (async_step e))
           (trace (serve cfg env JSON_stringify toString server req))
         = true).
Proof.
  unfold serve, webhook.
  destruct (verifyWebhookSignature env JSON_stringify req);
    [|right; repeat split; auto].
  destruct (validateWebhookPayload (body req)) as [[|]|e] eqn:Hv.
  - destruct (extractEventData_valid _ Hv) as [data Hd]. rewrite Hd.
    destruct (shouldProcessEvent cfg data) eqn:Hf.
    + left. exists data. auto.
    + right. repeat split; eauto.
  - right. repeat split; auto. right. left. discriminate.
  - right. repeat split; auto. right. left. discriminate.
Qed.

(** X14.  A request that is refused leaves nothing behind: when the
    signature does not verify, when the payload does not validate, or when
    the filter refuses the event, no request is sent to the remote API, no
    callback is queued, and neither the value mapper nor the client is
    entered. *)
Theorem refused_request_no_effects cfg env JSON_stringify toString server
    req :
  verifyWebhookSignature env JSON_stringify req = false
  \/ validateWebhookPayload (body req) <> Ok true
  \/ (exists eventData,
         extractEventData (body req) = Some eventData
         /\ shouldProcessEvent cfg eventData = false) ->
  sent (serve cfg env JSON_stringify toString server req) = 0
  /\ immediates (serve cfg env JSON_stringify toString server req) = []
  /\ forallb (fun e => negb (async_step e))
       (trace (serve cfg env JSON_stringify toString server req))
     = true.
Proof.
  intros H.
  destruct (serve_cases cfg env JSON_stringify toString server req)
    as [(data & Hv & Hp & He & Hf)|(_ & R)]; [|exact R].
  exfalso. destruct H as [H|[H|(d & Hd & H)]]; congruence.
Qed.

Lemma refused_request_no_effects_witness :
  let env := {| MONDAY_SIGNING_SECRET := Some "s3cr3t"%string;
                STATUS_COLUMN_ID := None |} in
  let stringify := fun _ : value => EmptyString in
  let server := fun _ : nat => answer_data VNull in
  verifyWebhookSignature env stringify formula_changed = false
  /\ sent (serve config env stringify stringify server formula_changed) = 0.
Proof.
  intros env stringify server.
  assert (H : verifyWebhookSignature env stringify formula_changed = false)
    by reflexivity.
  split; [exact H|].
  exact (proj1 (refused_request_no_effects config env stringify stringify
                  server formula_changed (or_introl H))).
Defined.

(** X15.  Every request the service sends to the remote API comes from a
    verified request whose event passed the filter: it is the mutation
    [change_column_value], for the board and the item of the event, the
    status column of the environment and the index of the status that the
    rules give to the parsed value of the event.  No other query is ever
    sent. *)
Theorem serve_fetch_provenance cfg env JSON_stringify toString server req
    query variables :
  In (Fetch query variables)
     (trace (serve cfg env JSON_stringify toString server req)) ->
  verifyWebhookSignature env JSON_stringify req = true
  /\ exists eventData x status,
       extractEventData (body req) = Some eventData
       /\ shouldProcessEvent cfg eventData = true
       /\ parseFormulaValue (value_ eventData) = Some x
       /\ mapValueToStatus cfg (Num x) = Some status
       /\ nullish (boardId eventData) = false
       /\ nullish (itemId eventData) = false
       /\ query = change_column_value
       /\ variables
          = status_variables JSON_stringify toString eventData
              (status_column env) (status_index status).
Proof.
  intros Hin.
  destruct (serve_cases cfg env JSON_stringify toString server req)
    as [(data & Hv & Hp & He & Hf)|(_ & _ & _ & R)].
  - split; [exact Hv|]. exists data.
    rewrite (serve_received _ _ _ _ _ _ _ Hv Hp He Hf) in Hin.
    match type of Hin with
    | In _ (trace (processWebhookEvent ?c ?e ?j ?t ?s ?d ?w0)) =>
        destruct (processWebhookEvent_outcomes c e j t s d w0)
          as [(Ht & _)|[(Ht & _)|(x & status & n & Hx & Hs & Hb & Hi & _
                                  & Ht & _)]];
          rewrite Ht in Hin; cbn [trace app] in Hin
    end.
    + exfalso. repeat (destruct Hin as [Hin|Hin]; [discriminate|]).
      exact Hin.
    + exfalso. repeat (destruct Hin as [Hin|Hin]; [discriminate|]).
      exact Hin.
    + exists x, status.
      repeat (destruct Hin as [Hin|Hin]; [discriminate|]).
      apply attempts_fetch in Hin. destruct Hin as [-> ->].
      apply no_toString_nullish in Hb, Hi. auto 10.
  - exfalso. rewrite forallb_forall in R. specialize (R _ Hin).
    discriminate.
Qed.

Lemma serve_fetch_provenance_witness :
  let stringify := fun _ : value => EmptyString in
  let toString := fun v : value =>
    match v with
    | VString s => s
    | _ => EmptyString
    end in
  let server := fun _ : nat => answer_data (VObject []) in
  let query := change_column_value in
  let variables :=
    status_variables stringify toString
      {| boardId := VString "456"; itemId := VString "123";
         columnId := VUndefined; columnType := VString "formula";
         value_ := VString "85%"; previousValue := VUndefined;
         userId := VUndefined |} "status" 2 in
  In (Fetch query variables)
     (trace (serve config no_secret stringify toString server
               formula_changed))
  /\ verifyWebhookSignature no_secret stringify formula_changed = true.
Proof.
  intros stringify toString server query variables.
  assert (H : In (Fetch query variables)
                (trace (serve config no_secret stringify toString server
                          formula_changed))).
  { unfold server, answer_data.
    rewrite (serve_formula_changed stringify toString (fun s => eq_refl)).
    simpl. do 7 right. left. reflexivity. }
  split; [exact H|].
  exact (proj1 (serve_fetch_provenance config no_secret stringify toString
                  server formula_changed query variables H)).
Defined.

Lemma quiet_slept (tr : list event) :
  forallb (fun e => negb (async_step e)) tr = true -> slept tr = 0%Z.
Proof.
  induction tr as [|e tr IH]; simpl; [reflexivity|].
  intros H. apply andb_true_iff in H. destruct H as [He H].
  destruct e; try discriminate; auto.
Qed.

(** X16.  One webhook delivery costs the remote API at most
    [maxRetries + 1] requests, and, under a policy whose [maxDelayMs] is
    not negative, its task sleeps at most [maxRetries] times
    [maxDelayMs] milliseconds in all, whatever the API answers. *)
Theorem serve_bounded cfg env JSON_stringify toString server req :
  sent (serve cfg env JSON_stringify toString server req)
  <= maxRetries (rateLimit cfg) + 1
  /\ ((0 <= maxDelayMs (rateLimit cfg))%Z ->
      (slept (trace (serve cfg env JSON_stringify toString server req))
       <= Z.of_nat (maxRetries (rateLimit cfg))
          * maxDelayMs (rateLimit cfg))%Z).
Proof.
  destruct (serve_cases cfg env JSON_stringify toString server req)
    as [(data & Hv & Hp & He & Hf)|(_ & Hs & _ & R)].
  - rewrite (serve_received _ _ _ _ _ _ _ Hv Hp He Hf).
    match goal with
    | |- context [processWebhookEvent ?c ?e ?j ?t ?s ?d ?w0] =>
        destruct (processWebhookEvent_outcomes c e j t s d w0)
          as [(Ht & Hs & _)|[(Ht & Hs & _)|(x & status & n & _ & _ & _ & _
                                            & Hn & Ht & Hs)]];
          rewrite Ht, Hs; cbn [trace sent app slept]
    end.
    + split; [lia|]. intros H. nia.
    + split; [lia|]. intros H. nia.
    + split; [lia|]. intros H.
      pose proof (attempts_slept cfg change_column_value
                    (status_variables JSON_stringify toString data
                       (status_column env) (status_index status)) 0 n).
      assert (Z.of_nat n * maxDelayMs (rateLimit cfg)
              <= Z.of_nat (maxRetries (rateLimit cfg))
                 * maxDelayMs (rateLimit cfg))%Z
        by (apply Z.mul_le_mono_nonneg_r; lia).
      lia.
  - rewrite Hs, (quiet_slept _ R). split; [lia|]. intros H. nia.
Qed.

Lemma serve_bounded_witness :
  (0 <= maxDelayMs (rateLimit config))%Z
  /\ (slept (trace (serve config no_secret (fun _ => EmptyString)
                      (fun _ => EmptyString) (fun _ => Rejected)
                      formula_changed))
      <= Z.of_nat (maxRetries (rateLimit config))
         * maxDelayMs (rateLimit config))%Z.
Proof.
  assert (H : (0 <= maxDelayMs (rateLimit config))%Z) by (simpl; lia).
  split; [exact H|].
  exact (proj2 (serve_bounded config no_secret (fun _ => EmptyString)
                  (fun _ => EmptyString) (fun _ => Rejected)
                  formula_changed) H).
Defined.

(** X17.  An event that passes every check but carries no item id (or no
    board id) is acknowledged and then dropped: the caller gets 200
    "Webhook received", and the task sends nothing to the remote API. *)
Theorem missing_id_acknowledged_not_updated cfg env JSON_stringify toString
    server req eventData :
  verifyWebhookSignature env JSON_stringify req = true ->
  validateWebhookPayload (body req) = Ok true ->
  extractEventData (body req) = Some eventData ->
  shouldProcessEvent cfg eventData = true ->
  nullish (boardId eventData) || nullish (itemId eventData) = true ->
  filter is_response
    (trace (serve cfg env JSON_stringify toString server req))
  = [Respond 200 (json_message "Webhook received")]
  /\ sent (serve cfg env JSON_stringify toString server req) = 0
  /\ forallb (fun e => negb (remote_step e))
       (trace (serve cfg env JSON_stringify toString server req))
     = true.
Proof.
  intros Hv Hp He Hf Hn.
  rewrite (serve_received _ _ _ _ _ _ _ Hv Hp He Hf).
  match goal with
  | |- context [processWebhookEvent ?c ?e ?j ?t ?s ?d ?w0] =>
      destruct (processWebhookEvent_outcomes c e j t s d w0)
        as [(Ht & Hs & _)|[(Ht & Hs & _)|(x & status & n & _ & _ & Hb & Hi
                                          & _)]]
  end.
  - rewrite Ht, Hs. repeat split.
  - rewrite Ht, Hs. repeat split.
  - apply no_toString_nullish in Hb, Hi. rewrite Hb, Hi in Hn.
    discriminate.
Qed.

Lemma missing_id_acknowledged_not_updated_witness :
  let req := {| authorization := None;
                body := VObject [("event", VObject [
                  ("boardId", VString "456");
                  ("columnType", VString "formula");
                  ("value", VString "85%") ])] |} in
  let eventData := {| boardId := VString "456"; itemId := VUndefined;
                      columnId := VUndefined;
                      columnType := VString "formula";
                      value_ := VString "85%"; previousValue := VUndefined;
                      userId := VUndefined |} in
  let stringify := fun _ : value => EmptyString in
  let server := fun _ : nat => answer_data VNull in
  extractEventData (body req) = Some eventData
  /\ nullish (boardId eventData) || nullish (itemId eventData) = true
  /\ sent (serve config no_secret stringify stringify server req) = 0.
Proof.
  intros req eventData stringify server.
  assert (H1 : extractEventData (body req) = Some eventData) by reflexivity.
  assert (H2 : nullish (boardId eventData) || nullish (itemId eventData)
               = true) by reflexivity.
  split; [exact H1|]. split; [exact H2|].
  exact (proj1 (proj2 (missing_id_acknowledged_not_updated config no_secret
                         stringify stringify server req eventData
                         eq_refl eq_refl H1 eq_refl H2))).
Defined.

Lemma hex_digit_lower (n : N) :
  (n < 16)%N -> lower_hex (Crypto.hex_digit n) = true.
Proof.
  intros H. destruct n as [|p]; [reflexivity|].
  do 4 (destruct p as [p|p|]; try reflexivity); exfalso; lia.
Qed.

Lemma forallb_string_app (f : ascii -> bool) (s1 s2 : string) :
  forallb f (list_ascii_of_string (s1 ++ s2))
  = forallb f (list_ascii_of_string s1)
    && forallb f (list_ascii_of_string s2).
Proof.
  induction s1 as [|c s1 IH]; simpl; [reflexivity|].
  rewrite IH. apply andb_assoc.
Qed.

Lemma hex_word_lower (x : N) :
  forallb lower_hex (list_ascii_of_string (Crypto.hex_word x)) = true.
Proof.
  unfold Crypto.hex_word. cbn [list_ascii_of_string forallb].
  rewrite !hex_digit_lower; try reflexivity;
    apply N.mod_lt; discriminate.
Qed.

Lemma hmac_sha256_hex_lower (key data : string) :
  forallb lower_hex
    (list_ascii_of_string (Crypto.hmac_sha256_hex key data)) = true.
Proof.
  unfold Crypto.hmac_sha256_hex, Crypto.hex_state.
  rewrite !forallb_string_app, !hex_word_lower. reflexivity.
Qed.

(** X18.  With a signing secret set, a request is accepted only if its
    [authorization] header is 64 digits of lower-case hexadecimal: the
    comparison is exact, so that the same digest in upper case, or with a
    prefix, is refused. *)
Theorem accepted_signature_shape env JSON_stringify req secret :
  present (MONDAY_SIGNING_SECRET env) = Some secret ->
  verifyWebhookSignature env JSON_stringify req = true ->
  exists signature,
    authorization req = Some signature
    /\ String.length signature = 64
    /\ forallb lower_hex (list_ascii_of_string signature) = true.
Proof.
  intros Hs Hv.
  apply (verifyWebhookSignature_secret env JSON_stringify req secret Hs)
    in Hv.
  eexists. split; [exact Hv|]. split.
  - apply hmac_sha256_hex_length.
  - apply hmac_sha256_hex_lower.
Qed.

Lemma accepted_signature_shape_witness :
  let env := {| MONDAY_SIGNING_SECRET := Some "s3cr3t"%string;
                STATUS_COLUMN_ID := None |} in
  let JSON_stringify := fun _ : value =>
    ("{" ++ dquote ++ "a" ++ dquote ++ ":1}")%string in
  let req := {|
    authorization :=
      Some "d42927434049e0b8c73ce887062238cc1c6bb6644bfe66e66d8dd0f30b85679e"%string;
    body := VObject [("a"%string, VNumber (of_Z 1))] |} in
  present (MONDAY_SIGNING_SECRET env) = Some "s3cr3t"%string
  /\ verifyWebhookSignature env JSON_stringify req = true
  /\ exists signature,
       authorization req = Some signature
       /\ String.length signature = 64
       /\ forallb lower_hex (list_ascii_of_string signature) = true.
Proof.
  intros env js req.
  assert (H1 : present (MONDAY_SIGNING_SECRET env) = Some "s3cr3t"%string)
    by reflexivity.
  assert (H2 : verifyWebhookSignature env js req = true)
    by (vm_compute; reflexivity).
  split; [exact H1|]. split; [exact H2|].
  exact (accepted_signature_shape env js req "s3cr3t"%string H1 H2).
Defined.

(** X19.  Loop prevention, from end to end: under any configuration, a
    request whose event has a [columnType] listed in [ignoreColumnTypes]
    (the type of the column that the service itself writes) sends nothing
    to the remote API and queues no callback, so that the service is not
    set off by its own update. *)
Theorem ignored_column_no_update cfg env JSON_stringify toString server req
    eventData :
  extractEventData (body req) = Some eventData ->
  truthy (columnType eventData) = true ->
  includes (ignoreColumnTypes cfg) (columnType eventData) = true ->
  sent (serve cfg env JSON_stringify toString server req) = 0
  /\ immediates (serve cfg env JSON_stringify toString server req) = []
  /\ forallb (fun e => negb (async_step e))
       (trace (serve cfg env JSON_stringify toString server req))
     = true.
Proof.
  intros He Ht Hi.
  assert (Hf : shouldProcessEvent cfg eventData = false)
    by (unfold shouldProcessEvent; rewrite Ht, Hi; reflexivity).
  destruct (serve_cases cfg env JSON_stringify toString server req)
    as [(data & _ & _ & Hd & Hp)|(_ & R)]; [|exact R].
  exfalso. congruence.
Qed.

Lemma ignored_column_no_update_witness :
  let req := {| authorization := None;
                body := VObject [("event", VObject [
                  ("boardId", VString "456");
                  ("pulseId", VString "123");
                  ("columnType", VString "status");
                  ("value", VString "Done") ])] |} in
  let eventData := {| boardId := VString "456"; itemId := VString "123";
                      columnId := VUndefined;
                      columnType := VString "status";
                      value_ := VString "Done"; previousValue := VUndefined;
                      userId := VUndefined |} in
  let stringify := fun _ : value => EmptyString in
  let server := fun _ : nat => answer_data VNull in
  extractEventData (body req) = Some eventData
  /\ truthy (columnType eventData) = true
  /\ includes (ignoreColumnTypes config) (columnType eventData) = true
  /\ sent (serve config no_secret stringify stringify server req) = 0.
Proof.
  intros req eventData stringify server.
  assert (H1 : extractEventData (body req) = Some eventData) by reflexivity.
  assert (H2 : truthy (columnType eventData) = true) by reflexivity.
  assert (H3 : includes (ignoreColumnTypes config) (columnType eventData)
               = true) by reflexivity.
  split; [exact H1|]. split; [exact H2|]. split; [exact H3|].
  exact (proj1 (ignored_column_no_update config no_secret stringify stringify
                  server req eventData H1 H2 H3)).
Defined.

(* ===================================================================== *)
(** ** Further properties of [parseFormulaValue] on strings *)
(* ===================================================================== *)

Lemma shr_1_nonneg (mrs : shr_record) :
  (0 <= shr_m mrs)%Z -> (0 <= shr_m (shr_1 mrs))%Z.
Proof.
  destruct mrs as [m r s]. destruct m as [|[p|p|]|p]; simpl; lia.
Qed.

Lemma iter_shr_1_nonneg (p : positive) (mrs : shr_record) :
  (0 <= shr_m mrs)%Z -> (0 <= shr_m (iter_pos shr_1 p mrs))%Z.
Proof.
  revert mrs. induction p as [p IH|p IH|]; intros mrs H; simpl.
  - apply IH, IH, shr_1_nonneg, H.
  - apply IH, IH, H.
  - apply shr_1_nonneg, H.
Qed.

Lemma shr_fexp_nonneg (m e : Z) (l : location) :
  (0 <= m)%Z -> (0 <= shr_m (fst (shr_fexp prec emax m e l)))%Z.
Proof.
  intros H. unfold shr_fexp, shr.
  assert (H0 : (0 <= shr_m (shr_record_of_loc m l))%Z)
    by (destruct l as [|[]]; exact H).
  destruct (fexp prec emax (Zdigits2 m + e) - e)%Z; simpl; auto.
  apply iter_shr_1_nonneg, H0.
Qed.

Lemma binary_round_aux_number (sx : bool) (mx ex : Z) (lx : location) :
  (0 <= mx)%Z -> isNaN (binary_round_aux prec emax sx mx ex lx) = false.
Proof.
  intros H. unfold binary_round_aux.
  pose proof (shr_fexp_nonneg mx ex lx H) as H1.
  destruct (shr_fexp prec emax mx ex lx) as [mrs' e']. simpl in H1.
  assert (H2 : (0 <= round_nearest_even (shr_m mrs')
                       (loc_of_shr_record mrs'))%Z).
  { unfold round_nearest_even.
    destruct (loc_of_shr_record mrs') as [|[]];
      try destruct (Z.even (shr_m mrs')); lia. }
  pose proof (shr_fexp_nonneg _ e' loc_Exact H2) as H3.
  destruct (shr_fexp prec emax _ e' loc_Exact) as [mrs'' e'']. simpl in H3.
  destruct (shr_m mrs'') as [|m|m]; [reflexivity| |lia].
  destruct (e'' <=? emax - prec)%Z; reflexivity.
Qed.

Lemma of_decimal_number (neg : bool) (m : N) (e : Z) :
  isNaN (of_decimal neg m e) = false.
Proof.
  unfold of_decimal. destruct m as [|p]; [reflexivity|].
  assert (R : forall q, isNaN (binary_round prec emax neg q 0) = false).
  { intros q. unfold binary_round.
    destruct (shl_align q 0 _) as [mz ez].
    apply binary_round_aux_number. lia. }
  destruct e as [|k|k]; [apply R|apply R|].
  unfold SFdiv, SFdiv_core_binary.
  set (d := Z.min _ _). set (m' := match (0 - 0 - d)%Z with Zpos _ => _ | Z0 => _ | Zneg _ => _ end).
  assert (Hm : (0 <= m')%Z).
  { subst m'. destruct (0 - 0 - d)%Z; try lia. apply Z.shiftl_nonneg. lia. }
  pose proof (Z_div_mod m' (Z.pos (10 ^ k)) ltac:(lia)) as Hd.
  destruct (Z.div_eucl m' (Z.pos (10 ^ k))) as [q r].
  apply binary_round_aux_number. nia.
Qed.

Ltac split_ascii c := destruct c as [[] [] [] [] [] [] [] []].

Lemma ws_strip_app (p r t : string) :
  ws_strip p = Some r -> ws_strip (p ++ t) = Some (r ++ t)%string.
Proof.
  destruct p as [|a p]; [discriminate|].
  split_ascii a; cbn [ws_strip];
    try discriminate; try (intros [= <-]; reflexivity);
    (destruct p as [|b p]; [discriminate|]);
    split_ascii b; cbn [ws_strip append];
    try discriminate; try (intros [= <-]; reflexivity);
    (destruct p as [|c p]; [discriminate|]);
    split_ascii c; cbn -[append];
    try discriminate; try (intros [= <-]; reflexivity).
Qed.

Lemma ws_strip_shorter (s r : string) :
  ws_strip s = Some r -> String.length r < String.length s.
Proof.
  destruct s as [|a s]; [discriminate|].
  split_ascii a; cbn [ws_strip];
    try discriminate; try (intros [= <-]; simpl; lia);
    (destruct s as [|b s]; [discriminate|]);
    split_ascii b; cbn [ws_strip];
    try discriminate; try (intros [= <-]; simpl; lia);
    (destruct s as [|c s]; [discriminate|]);
    split_ascii c; cbn -[String.length];
    try discriminate; try (intros [= <-]; simpl; lia).
Qed.

Lemma trimStart_fuel_stripped (n : nat) (s : string) :
  String.length s <= n -> ws_strip (trimStart_fuel n s) = None.
Proof.
  revert s. induction n as [|n IH]; intros s H.
  - destruct s; [reflexivity|simpl in H; lia].
  - simpl. destruct (ws_strip s) as [r|] eqn:E; [|exact E].
    apply IH. apply ws_strip_shorter in E. lia.
Qed.

Lemma trimStart_fixed (s : string) : ws_strip s = None -> trimStart s = s.
Proof.
  intros H. unfold trimStart. destruct (String.length s); simpl;
    [reflexivity|]. rewrite H. reflexivity.
Qed.

Lemma trimEnd_prefix (u : string) : exists t, u = (trimEnd u ++ t)%string.
Proof.
  induction u as [|c u [t IH]]; [exists EmptyString; reflexivity|].
  cbn [trimEnd]. destruct (blank (String c u)).
  - exists (String c u). reflexivity.
  - exists t. simpl. congruence.
Qed.

Lemma trim_stripped (s : string) : ws_strip (trim s) = None.
Proof.
  unfold trim.
  assert (H : ws_strip (trimStart s) = None)
    by (apply trimStart_fuel_stripped; lia).
  destruct (ws_strip (trimEnd (trimStart s))) as [r|] eqn:E; [|reflexivity].
  destruct (trimEnd_prefix (trimStart s)) as [t Ht].
  apply (ws_strip_app _ _ t) in E. rewrite <- Ht in E. congruence.
Qed.

Lemma read_sign_none (c : ascii) (r : string) :
  existsb (Ascii.eqb c) ["+"; "-"]%char = false ->
  read_sign (String c r) = (false, String c r).
Proof. split_ascii c; simpl; intros H; try discriminate; reflexivity. Qed.

Lemma match_point {A : Type} (c : ascii) (r : string) (a : string -> A)
    (b : A) :
  Ascii.eqb c "." = false ->
  match String c r with
  | String "." r2 => a r2
  | _ => b
  end = b.
Proof. split_ascii c; simpl; intros H; try discriminate; reflexivity. Qed.

Lemma prefix_Infinity (c : ascii) (r : string) :
  Ascii.eqb c "I" = false -> String.prefix "Infinity" (String c r) = false.
Proof.
  intros H.
  change (String.prefix "Infinity" (String c r))
    with (if ascii_dec "I" c then String.prefix "nfinity" r else false).
  destruct (ascii_dec "I" c) as [<-|]; [discriminate|reflexivity].
Qed.

(** X20.  Text before the number makes a value unreadable: when what is
    left of a string, once [,], [$] and [%] are removed and white space is
    trimmed, is empty or starts with a character that is no digit, no
    sign, no point and not the I of [Infinity], [parseFormulaValue]
    returns [null].  So it does for a currency symbol other than the
    dollar sign in front of an amount. *)
Theorem leading_text_not_read (s : string) :
  (trim (remove_chars formatting s) = EmptyString ->
   parseFormulaValue (VString s) = None)
  /\ (forall c r,
         trim (remove_chars formatting s) = String c r ->
         starts_numeral c = false ->
         parseFormulaValue (VString s) = None).
Proof.
  split.
  - intros H. simpl. rewrite H. reflexivity.
  - intros c r H Hc. cbn [parseFormulaValue]. cbv zeta.
    pose proof (trim_stripped (remove_chars formatting s)) as Hw.
    rewrite H in *. unfold parseFloat. rewrite (trimStart_fixed _ Hw).
    clear H Hw. revert Hc. unfold starts_numeral.
    split_ascii c; cbn; intros Hc; try discriminate; reflexivity.
Qed.

Lemma leading_text_not_read_witness :
  trim (remove_chars formatting "€5")
  = String "226" (String "130" (String "172" "5"))
  /\ starts_numeral "226" = false
  /\ parseFormulaValue (VString "€5") = None.
Proof.
  assert (H1 : trim (remove_chars formatting "€5")
               = String "226" (String "130" (String "172" "5")))
    by reflexivity.
  assert (H2 : starts_numeral "226" = false) by reflexivity.
  split; [exact H1|]. split; [exact H2|].
  exact (proj2 (leading_text_not_read "€5") _ _ H1 H2).
Defined.


Lemma span_digits_app (ds : list ascii) (junk : string) :
  forallb is_digit ds = true -> stops_numeral junk = true ->
  span_digits (string_of_list_ascii ds ++ junk) = (ds, junk).
Proof.
  intros Hd Hj. induction ds as [|d ds IH].
  - destruct junk as [|c j]; [reflexivity|].
    cbn [string_of_list_ascii append span_digits].
    unfold stops_numeral in Hj. apply negb_true_iff in Hj.
    apply orb_false_iff in Hj. destruct Hj as [-> _]. reflexivity.
  - cbn [forallb] in Hd. apply andb_true_iff in Hd. destruct Hd as [H1 H2].
    cbn [string_of_list_ascii append span_digits].
    rewrite H1, (IH H2). reflexivity.
Qed.

Lemma digit_first (d : ascii) (r : string) :
  is_digit d = true ->
  read_sign (String d r) = (false, String d r)
  /\ String.prefix "Infinity" (String d r) = false.
Proof.
  intros H. split.
  - revert H. split_ascii d; cbn; intros H; try discriminate; reflexivity.
  - apply prefix_Infinity. revert H.
    split_ascii d; cbn; intros H; try discriminate; reflexivity.
Qed.

Lemma read_unsigned_digits (neg : bool) (d : ascii) (ds : list ascii)
    (junk : string) :
  forallb is_digit (d :: ds) = true -> stops_numeral junk = true ->
  read_unsigned neg (string_of_list_ascii (d :: ds) ++ junk)
  = Some (of_decimal neg (digits_value (d :: ds)) 0).
Proof.
  intros Hd Hj. unfold read_unsigned.
  rewrite (span_digits_app _ _ Hd Hj).
  cbn [forallb] in Hd. apply andb_true_iff in Hd. destruct Hd as [H1 _].
  cbn [string_of_list_ascii append].
  rewrite (proj2 (digit_first d _ H1)).
  destruct junk as [|c j]; [reflexivity|].
  revert Hj. unfold stops_numeral.
  split_ascii c; cbn -[of_decimal digits_value]; intros Hj;
    try discriminate; reflexivity.
Qed.

(** X21.  Text after the number is ignored: when what is left of a
    string, once [,], [$] and [%] are removed and white space is trimmed,
    is a run of digits followed by a text that starts with no digit, no
    point and no exponent mark, [parseFormulaValue] returns the Number
    nearest to the integer that the digits spell. *)
Theorem trailing_text_ignored (s : string) (d : ascii) (ds : list ascii)
    (junk : string) :
  trim (remove_chars formatting s)
  = (string_of_list_ascii (d :: ds) ++ junk)%string ->
  forallb is_digit (d :: ds) = true ->
  stops_numeral junk = true ->
  parseFormulaValue (VString s)
  = Some (of_decimal false (digits_value (d :: ds)) 0).
Proof.
  intros H Hd Hj. cbn [parseFormulaValue]. cbv zeta.
  pose proof (trim_stripped (remove_chars formatting s)) as Hw.
  rewrite H in *. unfold parseFloat. rewrite (trimStart_fixed _ Hw).
  assert (H1 : is_digit d = true)
    by (cbn [forallb] in Hd; apply andb_true_iff in Hd; tauto).
  cbn [string_of_list_ascii append].
  rewrite (proj1 (digit_first d _ H1)).
  change (String d (string_of_list_ascii ds ++ junk))
    with (string_of_list_ascii (d :: ds) ++ junk)%string.
  rewrite (read_unsigned_digits false d ds junk Hd Hj).
  rewrite of_decimal_number. reflexivity.
Qed.

Lemma trailing_text_ignored_witness :
  trim (remove_chars formatting "85 points")
  = (string_of_list_ascii ["8"; "5"]%char ++ " points")%string
  /\ forallb is_digit ["8"; "5"]%char = true
  /\ stops_numeral " points" = true
  /\ parseFormulaValue (VString "85 points")
     = Some (of_decimal false (digits_value ["8"; "5"]%char) 0).
Proof.
  assert (H1 : trim (remove_chars formatting "85 points")
               = (string_of_list_ascii ["8"; "5"]%char ++ " points")%string)
    by reflexivity.
  assert (H2 : forallb is_digit ["8"; "5"]%char = true) by reflexivity.
  assert (H3 : stops_numeral " points" = true) by reflexivity.
  split; [exact H1|]. split; [exact H2|]. split; [exact H3|].
  exact (trailing_text_ignored "85 points" "8" ["5"%char] " points"
           H1 H2 H3).
Defined.

